(** * Nuitka: constant reference nodes, built-in type nodes and C string encoding

    A shallow embedding of

    - [nuitka/utils/CStrings.py]        (module [CStrings] below),
    - [nuitka/nodes/ConstantRefNodes.py] (module [ConstantRefNodes]),
    - [nuitka/nodes/BuiltinTypeNodes.py] (module [BuiltinTypeNodes]),

    together with the properties the specification states about them.

    Python values are modelled by inductive types, Python exceptions
    (a failed [assert] included) by an error result, and mutable
    collaborators (the logging module, the constraint collection, the
    parent slot of a node) by explicit state.  What the three files use
    but do not define is a field of [Environment] or of [Helpers]. *)

From Stdlib Require Import List Strings.String Strings.Ascii Strings.Byte.
From Stdlib Require Import NArith ZArith Lia Bool DecimalN DecimalPos.
From Equations Require Import Equations.
Import ListNotations.

Open Scope string_scope.

Set Warnings "-register-all".

(* ===================================================================== *)
(** * Characters and small string helpers                                 *)
(* ===================================================================== *)

Module Chars.

(** The characters the encoders produce or test for, by code. *)
Definition dquote    : ascii := "034"%char.
Definition backslash : ascii := "092"%char.
Definition space     : ascii := "032"%char.
Definition tab       : ascii := "009"%char.
Definition newline   : ascii := "010"%char.
Definition creturn   : ascii := "013"%char.
Definition question  : ascii := "063"%char.

(** A one character string. *)
Definition str1 (c : ascii) : string := String c EmptyString.

(** [chr(cv)] for a byte value. *)
Definition chr (cv : N) : ascii := ascii_of_N cv.

(** [c in b'...'] for one byte [c]: membership in a byte string. *)
Fixpoint byte_in (c : byte) (s : string) : bool :=
  match s with
  | EmptyString => false
  | String x s' => Ascii.eqb (ascii_of_byte c) x || byte_in c s'
  end.

Definition octal_char (d : N) : ascii := ascii_of_N (48 + d).

(** [ '%o' % n ]: the octal digits of [n], most significant first, no
    padding, ["0"] for zero. *)
Fixpoint format_o_aux (fuel : nat) (n : N) (acc : string) : string :=
  match fuel with
  | O => acc
  | S fuel' =>
      let acc' := String (octal_char (n mod 8)) acc in
      if (n / 8 =? 0)%N then acc' else format_o_aux fuel' (n / 8) acc'
  end.

Definition format_o (n : N) : string :=
  format_o_aux (S (N.to_nat (N.log2 n))) n EmptyString.

(** [ '%d' % n ] as a list of character codes. *)
Fixpoint uint_codes (u : Decimal.uint) : list N :=
  match u with
  | Decimal.Nil => []
  | Decimal.D0 u' => 48%N :: uint_codes u'
  | Decimal.D1 u' => 49%N :: uint_codes u'
  | Decimal.D2 u' => 50%N :: uint_codes u'
  | Decimal.D3 u' => 51%N :: uint_codes u'
  | Decimal.D4 u' => 52%N :: uint_codes u'
  | Decimal.D5 u' => 53%N :: uint_codes u'
  | Decimal.D6 u' => 54%N :: uint_codes u'
  | Decimal.D7 u' => 55%N :: uint_codes u'
  | Decimal.D8 u' => 56%N :: uint_codes u'
  | Decimal.D9 u' => 57%N :: uint_codes u'
  end.

Definition format_d (n : N) : list N := uint_codes (N.to_uint n).

(** [s.replace(old, new)]: left to right, non overlapping.  [skip] counts
    the characters of a match that are still to be dropped. *)
Fixpoint replace_from (skip : nat) (old new s : string) : string :=
  match s with
  | EmptyString => EmptyString
  | String c s' =>
      match skip with
      | S k => replace_from k old new s'
      | O =>
          if String.prefix old s
          then new ++ replace_from (String.length old - 1) old new s'
          else String c (replace_from 0 old new s')
      end
  end.

(** Python inserts [new] around every character when [old] is empty. *)
Fixpoint replace_empty (new s : string) : string :=
  match s with
  | EmptyString => new
  | String c s' => new ++ String c (replace_empty new s')
  end.

Definition replace (s old new : string) : string :=
  match old with
  | EmptyString => replace_empty new s
  | String _ _ => replace_from 0 old new s
  end.

(** Python slices [value[:n]] and [value[n:]] for a bound [n >= 0]. *)
Definition slice_to {A} (n : N) (l : list A) : list A := firstn (N.to_nat n) l.
Definition slice_from {A} (n : N) (l : list A) : list A := skipn (N.to_nat n) l.

End Chars.

(* ===================================================================== *)
(** * nuitka/utils/CStrings.py                                            *)
(* ===================================================================== *)

Module CStrings.
Import Chars.

(** The bytes that are always written as octal escapes: backslash, tab,
    carriage return, newline, double quote and question mark. *)
Definition always_escaped : string :=
  String backslash (String tab (String creturn (String newline
    (String dquote (String question EmptyString))))).

Definition digits : string := "0123456789".

(** The text inserted in front of a digit that follows an octal escape:
    a closing quote, a space and an opening quote. *)
Definition literal_break : string :=
  String dquote (String space (String dquote EmptyString)).

(** One round of the loop of [_encodePythonStringToC]; the loop state is
    the pair [(result, octal)].  On both Python lines [cv] is the byte
    value ([ord(c)] on Python 2, [c] itself on Python 3). *)
Definition encode_step (st : string * bool) (c : byte) : string * bool :=
  let '(result, octal) := st in
  let cv := Byte.to_N c in
  if byte_in c always_escaped then
    (result ++ String backslash (format_o cv), true)
  else if ((32 <=? cv) && (cv <=? 127))%N then
    let result :=
      if octal && byte_in c digits then result ++ literal_break else result in
    (result ++ str1 (chr cv), false)
  else
    (result ++ String backslash (format_o cv), true).

Definition encode_loop (value : list byte) : string * bool :=
  fold_left encode_step value (EmptyString, false).

Definition _encodePythonStringToC (value : list byte) : string :=
  let result := fst (encode_loop value) in
  let result := replace result (literal_break ++ str1 backslash) (str1 backslash) in
  String dquote (result ++ str1 dquote).

Definition chunk : N := 16000.

(** The [while len(value) > 0] loop of [encodePythonStringToC]. *)
Equations? encode_more (result : string) (value : list byte) : string
  by wf (List.length value) lt :=
  encode_more result [] := result;
  encode_more result (b :: v) :=
    encode_more
      (result ++ str1 space ++ _encodePythonStringToC (slice_to chunk (b :: v)))
      (slice_from chunk (b :: v)).
Proof.
  unfold slice_from. rewrite length_skipn. cbn [List.length]. unfold chunk. lia.
Qed.

Definition encodePythonStringToC (value : list byte) : string :=
  encode_more (_encodePythonStringToC (slice_to chunk value))
              (slice_from chunk value).

(** ** [encodePythonIdentifierToC]

    A text is a list of code points, so that both Python 2 byte strings
    and Python 3 strings are covered. *)
Definition text := list N.

Definition code (c : ascii) : N := N_of_ascii c.

(** The character class [a-zA-Z0-9_]. *)
Definition is_identifier_char (c : N) : bool :=
  ((97 <=? c) && (c <=? 122) || (65 <=? c) && (c <=? 90)
   || (48 <=? c) && (c <=? 57) || (c =? 95))%N.

Definition dot : N := 46.
Definition dollar : N := 36.

(** The local function [r]: the replacement for a matched character. *)
Definition r (c : N) : text :=
  if (c =? dot)%N then [dollar]
  else ([dollar; dollar] ++ format_d c ++ [dollar])%list.

(** [re.sub("[^a-zA-Z0-9_]", r, c)] on the one character string [c]. *)
Definition re_sub_char (c : N) : text :=
  if is_identifier_char c then [c] else r c.

Definition encodePythonIdentifierToC (value : text) : text :=
  List.concat (map re_sub_char value).

Definition text_of_string (s : string) : text :=
  map code (list_ascii_of_string s).

End CStrings.

(* ===================================================================== *)
(** * The C string-literal grammar the encoded text is read under         *)
(* ===================================================================== *)

(** The reader of the backend side, written after the specification's
    words (octal escapes of one to three digits, adjacent literals
    concatenated).  It is the yardstick [encodePythonStringToC] is compared
    with, not a translation of repository code. *)
Module CLiteral.
Import Chars.

Inductive lit_state : Type :=
| Outside                 (* between two literals *)
| Inside                  (* after an opening quote *)
| Escape                  (* after a backslash *)
| Octal1 (acc : N)        (* one octal digit read *)
| Octal2 (acc : N).       (* two octal digits read *)

Definition octal_digit (c : ascii) : option N :=
  let n := N_of_ascii c in
  if ((48 <=? n) && (n <=? 55))%N then Some (n - 48)%N else None.

Definition is_blank (c : ascii) : bool :=
  Ascii.eqb c space || Ascii.eqb c tab || Ascii.eqb c newline
  || Ascii.eqb c creturn.

(** The single character escapes of C. *)
Definition simple_escape (c : ascii) : option byte :=
  match N_of_ascii c with
  | 110 => Some x0a   (* n *)
  | 116 => Some x09   (* t *)
  | 114 => Some x0d   (* r *)
  | 97  => Some x07   (* a *)
  | 98  => Some x08   (* b *)
  | 102 => Some x0c   (* f *)
  | 118 => Some x0b   (* v *)
  | 92  => Some x5c   (* backslash *)
  | 34  => Some x22   (* double quote *)
  | 39  => Some x27   (* single quote *)
  | 63  => Some x3f   (* question mark *)
  | _ => None
  end%N.

Definition step_inside (c : ascii) : option (lit_state * list byte) :=
  if Ascii.eqb c dquote then Some (Outside, [])
  else if Ascii.eqb c backslash then Some (Escape, [])
  else if Ascii.eqb c newline || Ascii.eqb c creturn then None
  else Some (Inside, [byte_of_ascii c]).

(** An escape whose digits are over: its byte is produced, then the
    character at hand is read as inside the literal. *)
Definition flush (acc : N) (c : ascii) : option (lit_state * list byte) :=
  match Byte.of_N acc with
  | None => None
  | Some b =>
      match step_inside c with
      | None => None
      | Some (st, out) => Some (st, b :: out)
      end
  end.

Definition step (st : lit_state) (c : ascii) : option (lit_state * list byte) :=
  match st with
  | Outside =>
      if is_blank c then Some (Outside, [])
      else if Ascii.eqb c dquote then Some (Inside, [])
      else None
  | Inside => step_inside c
  | Escape =>
      match octal_digit c with
      | Some d => Some (Octal1 d, [])
      | None =>
          match simple_escape c with
          | Some b => Some (Inside, [b])
          | None => None
          end
      end
  | Octal1 acc =>
      match octal_digit c with
      | Some d => Some (Octal2 (8 * acc + d)%N, [])
      | None => flush acc c
      end
  | Octal2 acc =>
      match octal_digit c with
      | Some d =>
          match Byte.of_N (8 * acc + d) with
          | Some b => Some (Inside, [b])
          | None => None
          end
      | None => flush acc c
      end
  end.

Fixpoint scan (st : lit_state) (s : string) : option (lit_state * list byte) :=
  match s with
  | EmptyString => Some (st, [])
  | String c s' =>
      match step st c with
      | None => None
      | Some (st', out) =>
          match scan st' s' with
          | None => None
          | Some (st'', out') => Some (st'', (out ++ out')%list)
          end
      end
  end.

(** The bytes a text of adjacent string literals denotes; [None] when
    the text is not such a sequence.  Trigraphs are left out: they start
    with two question marks, and the encoder writes every question mark
    as an escape. *)
Definition decode (s : string) : option (list byte) :=
  match scan Outside s with
  | Some (Outside, out) => Some out
  | _ => None
  end.

End CLiteral.

(* ===================================================================== *)
(** * Python values, as far as constant nodes hold them                   *)
(* ===================================================================== *)

Module Python.
Local Open Scope list_scope.
Local Open Scope Z_scope.

(** The characters of a [str] or [unicode] value, by code. *)
Definition text := list N.

(** A float by its exact value [mantissa * 2 ^ exponent], or a special. *)
Inductive float_value : Type :=
| Finite (mantissa exponent : Z)
| Infinity (negative : bool)
| NaN.

Inductive pyvalue : Type :=
| PyNone
| PyBool (b : bool)
| PyEllipsis
| PyInt (z : Z)
| PyLong (z : Z)                     (* Python 2 only *)
| PyFloat (f : float_value)
| PyComplex (real imag : float_value)
| PyStr (s : text)                   (* byte string on 2, text on 3 *)
| PyUnicode (s : text)               (* Python 2 only *)
| PyBytes (s : list byte)            (* Python 3 only *)
| PyTuple (l : list pyvalue)
| PyList (l : list pyvalue)
| PySet (l : list pyvalue)          (* in the set's iteration order *)
| PyFrozenset (l : list pyvalue)
| PyDict (items : list (pyvalue * pyvalue))   (* in iteration order *)
| PySlice (start stop step : pyvalue)
| PyType (name : string).

(** The result of [type(value)]. *)
Inductive pytype : Type :=
| TNoneType | TBool | TEllipsis | TInt | TLong | TFloat | TComplex
| TStr | TUnicode | TBytes | TTuple | TList | TSet | TFrozenset | TDict
| TSlice | TType.

Definition pytype_eqb (a b : pytype) : bool :=
  match a, b with
  | TNoneType, TNoneType | TBool, TBool | TEllipsis, TEllipsis
  | TInt, TInt | TLong, TLong | TFloat, TFloat | TComplex, TComplex
  | TStr, TStr | TUnicode, TUnicode | TBytes, TBytes | TTuple, TTuple
  | TList, TList | TSet, TSet | TFrozenset, TFrozenset | TDict, TDict
  | TSlice, TSlice | TType, TType => true
  | _, _ => false
  end.

Definition type_of (c : pyvalue) : pytype :=
  match c with
  | PyNone => TNoneType
  | PyBool _ => TBool
  | PyEllipsis => TEllipsis
  | PyInt _ => TInt
  | PyLong _ => TLong
  | PyFloat _ => TFloat
  | PyComplex _ _ => TComplex
  | PyStr _ => TStr
  | PyUnicode _ => TUnicode
  | PyBytes _ => TBytes
  | PyTuple _ => TTuple
  | PyList _ => TList
  | PySet _ => TSet
  | PyFrozenset _ => TFrozenset
  | PyDict _ => TDict
  | PySlice _ _ _ => TSlice
  | PyType _ => TType
  end.

(** [t.__name__] *)
Definition type_name (t : pytype) : string :=
  match t with
  | TNoneType => "NoneType"
  | TBool => "bool"
  | TEllipsis => "ellipsis"
  | TInt => "int"
  | TLong => "long"
  | TFloat => "float"
  | TComplex => "complex"
  | TStr => "str"
  | TUnicode => "unicode"
  | TBytes => "bytes"
  | TTuple => "tuple"
  | TList => "list"
  | TSet => "set"
  | TFrozenset => "frozenset"
  | TDict => "dict"
  | TSlice => "slice"
  | TType => "type"
  end.

(** [t in (t1, t2, ...)] *)
Definition type_in (t : pytype) (ts : list pytype) : bool :=
  existsb (pytype_eqb t) ts.

(** ** Exceptions *)

Inductive exn : Type :=
| AssertionError | TypeError | KeyError | IndexError | AttributeError
| ValueError.

Inductive outcome (A : Type) : Type :=
| Return (a : A)
| Raise (e : exn).
Arguments Return {A} a.
Arguments Raise {A} e.

(** ** [len], iteration and subscription *)

Definition size {A} (l : list A) : Z := Z.of_nat (List.length l).

Definition len (c : pyvalue) : outcome Z :=
  match c with
  | PyStr s | PyUnicode s => Return (size s)
  | PyBytes s => Return (size s)
  | PyTuple l | PyList l | PySet l | PyFrozenset l => Return (size l)
  | PyDict items => Return (size items)
  | _ => Raise TypeError
  end.

(** The values [for value in c] goes through, as [tuple(c)] collects
    them. *)
Definition iterate (c : pyvalue) : outcome (list pyvalue) :=
  match c with
  | PyStr s => Return (map (fun ch => PyStr [ch]) s)
  | PyUnicode s => Return (map (fun ch => PyUnicode [ch]) s)
  | PyBytes s => Return (map (fun b => PyInt (Z.of_N (Byte.to_N b))) s)
  | PyTuple l | PyList l | PySet l | PyFrozenset l => Return l
  | PyDict items => Return (map fst items)
  | _ => Raise TypeError
  end.

(** [l[i]] on a sequence: a negative index counts from the end. *)
Definition sequence_item {A} (l : list A) (i : Z) : outcome A :=
  let j := if i <? 0 then i + size l else i in
  if j <? 0 then Raise IndexError
  else match nth_error l (Z.to_nat j) with
       | Some x => Return x
       | None => Raise IndexError
       end.

Definition map_outcome {A B} (f : A -> B) (o : outcome A) : outcome B :=
  match o with
  | Return a => Return (f a)
  | Raise e => Raise e
  end.

(** Whether the integer [i] and the float [f] are equal numbers. *)
Definition float_is_int (f : float_value) (i : Z) : bool :=
  match f with
  | Finite m e =>
      if 0 <=? e then i =? m * 2 ^ e
      else (m mod 2 ^ (- e) =? 0) && (i =? m / 2 ^ (- e))
  | _ => false
  end.

(** [key == i] for an integer [i], as a dictionary lookup compares. *)
Definition equals_int (key : pyvalue) (i : Z) : bool :=
  match key with
  | PyInt z | PyLong z => z =? i
  | PyBool b => (if b then 1 else 0) =? i
  | PyFloat f => float_is_int f i
  | PyComplex re im => float_is_int re i && float_is_int im 0
  | _ => false
  end.

Fixpoint dict_item (items : list (pyvalue * pyvalue)) (i : Z)
  : outcome pyvalue :=
  match items with
  | [] => Raise KeyError
  | (key, value) :: items' =>
      if equals_int key i then Return value else dict_item items' i
  end.

(** [c[i]] for an integer [i]. *)
Definition subscript (c : pyvalue) (i : Z) : outcome pyvalue :=
  match c with
  | PyStr s => map_outcome (fun ch => PyStr [ch]) (sequence_item s i)
  | PyUnicode s => map_outcome (fun ch => PyUnicode [ch]) (sequence_item s i)
  | PyBytes s =>
      map_outcome (fun b => PyInt (Z.of_N (Byte.to_N b))) (sequence_item s i)
  | PyTuple l | PyList l => sequence_item l i
  | PyDict items => dict_item items i
  | _ => Raise TypeError
  end.

(** [bool(c)] for a dictionary: whether it has items. *)
Definition dict_truth (items : list (pyvalue * pyvalue)) : bool :=
  match items with [] => false | _ => true end.

(** [list.append] called with the arguments [args]: exactly one is
    accepted. *)
Definition list_append {A} (l : list A) (args : list A) : outcome (list A) :=
  match args with
  | [x] => Return (l ++ [x])
  | _ => Raise TypeError
  end.

End Python.

(* ===================================================================== *)
(** * Nodes, the log, the constraint collection and the collaborators     *)
(* ===================================================================== *)

Module Nodes.
Export Python.
Local Open Scope list_scope.

(** A source reference, known by what [getAsString] gives. *)
Inductive source_ref : Type := SourceRef (as_string : string).

Definition getAsString (sr : source_ref) : string :=
  match sr with SourceRef s => s end.

(** The [kind] attribute of the classes of [ConstantRefNodes]. *)
Inductive kind : Type :=
| EXPRESSION_CONSTANT_NONE_REF
| EXPRESSION_CONSTANT_TRUE_REF
| EXPRESSION_CONSTANT_FALSE_REF
| EXPRESSION_CONSTANT_ELLIPSIS_REF
| EXPRESSION_CONSTANT_DICT_REF
| EXPRESSION_CONSTANT_TUPLE_REF
| EXPRESSION_CONSTANT_LIST_REF
| EXPRESSION_CONSTANT_SET_REF
| EXPRESSION_CONSTANT_INT_REF
| EXPRESSION_CONSTANT_LONG_REF
| EXPRESSION_CONSTANT_STR_REF
| EXPRESSION_CONSTANT_UNICODE_REF
| EXPRESSION_CONSTANT_BYTES_REF
| EXPRESSION_CONSTANT_FLOAT_REF
| EXPRESSION_CONSTANT_COMPLEX_REF
| EXPRESSION_CONSTANT_SLICE_REF
| EXPRESSION_CONSTANT_TYPE_REF
| EXPRESSION_CONSTANT_DICT_EMPTY_REF.

(** An instance of a subclass of [ExpressionConstantRefBase]. *)
Record ConstantRefNode : Type := mkConstantRef {
  node_kind : kind;
  constant : pyvalue;
  user_provided : bool;
  source_reference : source_ref
}.

(** The built-in an [ExpressionBuiltinIntLongBase] subclass stands for
    (its [builtin] attribute). *)
Inductive builtin : Type := builtin_int | builtin_long.

Definition builtin_name (b : builtin) : string :=
  match b with builtin_int => "int" | builtin_long => "long" end.

Inductive node : Type :=
| ConstantRef (n : ConstantRefNode)
(* ExpressionBuiltinBytearray, with its slot [value] *)
| BuiltinBytearray (value : option node) (sr : source_ref)
(* ExpressionBuiltinInt and ExpressionBuiltinLong, slots [value], [base] *)
| BuiltinIntLong (b : builtin) (value base : option node) (sr : source_ref)
(* the replacement that raises when run, and the wrapper that keeps side
   effects in front of an expression; both classes live elsewhere *)
| RaiseException (exception_type exception_value : string) (sr : source_ref)
| SideEffects (side_effects : list node) (expression : node)
(* any node of a class this development does not look into *)
| OtherNode (name : string) (sr : source_ref).

(** What a compute method returns: the node, the change tag and the
    change description. *)
Definition Result : Type := node * option string * option string.

(** ** The constraint collection

    It belongs to the optimizer; here it is the record of the calls it
    received, oldest first. *)
Inductive collection_call : Type :=
| onExceptionRaiseExit (raised : exn).

Definition Collection : Type := list collection_call.

Definition notify (c : Collection) (call : collection_call) : Collection :=
  c ++ [call].

(** ** The log of the [logging] module *)
Record LogRecord : Type := mkLogRecord {
  log_format : string;
  log_type : pytype;
  log_size : Z;
  log_where : string
}.

(** ** Computations: a log is threaded, an exception ends the run *)
Definition M (A : Type) : Type := list LogRecord -> outcome A * list LogRecord.

Definition ret {A} (a : A) : M A := fun log => (Return a, log).

Definition raise {A} (e : exn) : M A := fun log => (Raise e, log).

Definition bind {A B} (m : M A) (k : A -> M B) : M B :=
  fun log =>
    match m log with
    | (Return a, log') => k a log'
    | (Raise e, log') => (Raise e, log')
    end.

Definition lift {A} (o : outcome A) : M A :=
  match o with
  | Return a => ret a
  | Raise e => raise e
  end.

Definition assert (b : bool) : M unit :=
  if b then ret tt else raise AssertionError.

Definition warning (r : LogRecord) : M unit :=
  fun log => (Return tt, log ++ [r]).

(** The body of a [for] loop run over [l], with the loop state [acc]. *)
Fixpoint for_each {A S} (l : list A) (body : S -> A -> M S) (acc : S) : M S :=
  match l with
  | [] => ret acc
  | x :: l' => bind (body acc x) (for_each l' body)
  end.

(** What the lambda handed to [getCompileTimeComputationResult] calls. *)
Inductive computation : Type :=
| call_base_2 (b : builtin)                    (* builtin(base = 2) *)
| simulateCall (b : builtin) (given_values : list node).

(** ** Settings read from the rest of the compiler and from the hosting
    Python.  None of these is defined in the three files. *)
Record Environment : Type := mkEnvironment {
  (* nuitka.PythonVersions.python_version, e.g. 270 or 350 *)
  python_version : N;
  (* nuitka.Options.isDebug() *)
  isDebug : bool;
  (* nuitka.Constants.isConstant, isIterableConstant *)
  isConstant : pyvalue -> bool;
  isIterableConstant : pyvalue -> bool;
  (* what int(base = 2) and long(base = 2) give on the hosting Python:
     [None] when the call raises TypeError, the only exception it can
     end in *)
  base_2 : builtin -> option pyvalue
}.

(** The names [unicode], [long] and [bytes] resolve by Python line:
    [nuitka.__past__] makes [unicode] and [long] aliases of [str] and
    [int] on Python 3, and [bytes] is [str] on Python 2. *)
Definition python3 (env : Environment) : bool := (300 <=? python_version env)%N.

Definition str (env : Environment) : pytype := TStr.
Definition unicode (env : Environment) : pytype :=
  if python3 env then TStr else TUnicode.
Definition long (env : Environment) : pytype :=
  if python3 env then TInt else TLong.
Definition bytes (env : Environment) : pytype :=
  if python3 env then TBytes else TStr.

(** The literal [b"..."] *)
Definition bytes_literal (env : Environment) (s : list byte) : pyvalue :=
  if python3 env then PyBytes s else PyStr (map Byte.to_N s).

(** The literal ['0'] *)
Definition str_zero : pyvalue := PyStr [48%N].

(** ** Functions of [NodeMakingHelpers], [NodeBases] and of the
    collection that the three files call but do not define. *)
Record Helpers : Type := mkHelpers {
  (* makeRaiseExceptionReplacementExpression(expression, exception_type,
     exception_value) *)
  makeRaiseExceptionReplacementExpression : node -> string -> string -> node;
  (* wrapExpressionWithSideEffects(new_node, old_node, side_effects) *)
  wrapExpressionWithSideEffects : node -> node -> list node -> node;
  (* call_node.extractPreCallSideEffects() *)
  extractPreCallSideEffects : node -> list node;
  (* makeConstantReplacementNode(constant, node): the node is known by
     its source reference, all it has when the call is made *)
  makeConstantReplacementNode : pyvalue -> source_ref -> M node;
  (* constraint_collection.getCompileTimeComputationResult(node,
     computation, description) *)
  getCompileTimeComputationResult :
    Collection -> node -> computation -> string -> M (Result * Collection);
  (* self.computeBuiltinSpec(constraint_collection, given_values) *)
  computeBuiltinSpec :
    node -> Collection -> list node -> M (Result * Collection)
}.

End Nodes.

(* ===================================================================== *)
(** * nuitka/nodes/ConstantRefNodes.py                                    *)
(* ===================================================================== *)

Module ConstantRefNodes.
Export Nodes.
Local Open Scope list_scope.
Local Open Scope Z_scope.

Notation "x <- m ;; k" := (bind m (fun x => k))
  (at level 61, m at next level, right associativity).
Notation "m ;;; k" := (bind m (fun _ => k))
  (at level 61, right associativity).

Definition too_large_format : string :=
  "Too large constant (%s %d) encountered at %s.".

Module ExpressionConstantRefBase.

(** [__init__], run for the class whose [kind] is [k]; every subclass
    hands its arguments through to it. *)
Definition __init__ (env : Environment) (k : kind) (constant : pyvalue)
           (source_ref : source_ref) (user_provided : bool)
  : M ConstantRefNode :=
  assert (isConstant env constant) ;;;
  (if negb user_provided && isDebug env then
     match len constant with
     | Return size =>
         let max_size :=
           if type_in (type_of constant) [str env; unicode env]
           then 1000 else 256 in
         if size >? max_size then
           warning (mkLogRecord too_large_format (type_of constant) size
                                (getAsString source_ref))
         else ret tt
     | Raise TypeError => ret tt
     | Raise e => raise e
     end
   else ret tt) ;;;
  ret (mkConstantRef k constant user_provided source_ref).

End ExpressionConstantRefBase.

Definition the_empty_dict : pyvalue := PyDict [].

Definition makeConstantRefNode (env : Environment) (constant : pyvalue)
           (source_ref : source_ref) (user_provided : bool)
  : M ConstantRefNode :=
  let init k c := ExpressionConstantRefBase.__init__ env k c source_ref user_provided in
  match constant with
  | PyNone => init EXPRESSION_CONSTANT_NONE_REF PyNone
  | PyBool true => init EXPRESSION_CONSTANT_TRUE_REF (PyBool true)
  | PyBool false => init EXPRESSION_CONSTANT_FALSE_REF (PyBool false)
  | PyEllipsis => init EXPRESSION_CONSTANT_ELLIPSIS_REF PyEllipsis
  | _ =>
      let constant_type := type_of constant in
      if pytype_eqb constant_type TInt then
        init EXPRESSION_CONSTANT_INT_REF constant
      else if pytype_eqb constant_type (str env) then
        init EXPRESSION_CONSTANT_STR_REF constant
      else if pytype_eqb constant_type TFloat then
        init EXPRESSION_CONSTANT_FLOAT_REF constant
      else if pytype_eqb constant_type (long env) then
        init EXPRESSION_CONSTANT_LONG_REF constant
      else if pytype_eqb constant_type (unicode env) then
        init EXPRESSION_CONSTANT_UNICODE_REF constant
      else if pytype_eqb constant_type (bytes env) then
        init EXPRESSION_CONSTANT_BYTES_REF constant
      else if pytype_eqb constant_type TDict then
        match constant with
        | PyDict (_ :: _) => init EXPRESSION_CONSTANT_DICT_REF constant
        | _ => init EXPRESSION_CONSTANT_DICT_EMPTY_REF the_empty_dict
        end
      else if pytype_eqb constant_type TTuple then
        init EXPRESSION_CONSTANT_TUPLE_REF constant
      else if pytype_eqb constant_type TList then
        init EXPRESSION_CONSTANT_LIST_REF constant
      else if pytype_eqb constant_type TSet then
        init EXPRESSION_CONSTANT_SET_REF constant
      else if pytype_eqb constant_type TComplex then
        init EXPRESSION_CONSTANT_COMPLEX_REF constant
      else if pytype_eqb constant_type TSlice then
        init EXPRESSION_CONSTANT_SLICE_REF constant
      else if pytype_eqb constant_type TType then
        init EXPRESSION_CONSTANT_TYPE_REF constant
      else
        raise AssertionError
  end.

(** What a [pairs] list holds: a node, a raw key, or a tuple of these. *)
Inductive item : Type :=
| ItemNode (n : ConstantRefNode)
| ItemKey (key : pyvalue)
| ItemTuple (elements : list item).

(** [iterItems(d)] *)
Definition iterItems (d : pyvalue) : outcome (list (pyvalue * pyvalue)) :=
  match d with
  | PyDict items => Return items
  | _ => Raise AttributeError
  end.

(** ** Methods of [ExpressionConstantRefBase]; no subclass overrides
    any of them. *)

Definition computeExpression (self : ConstantRefNode)
           (constraint_collection : Collection) : Result :=
  (ConstantRef self, None, None).

Definition computeExpressionCall (helpers : Helpers) (self : ConstantRefNode)
           (call_node : node) (call_args call_kw : option node)
           (constraint_collection : Collection) : Result * Collection :=
  let new_node :=
    wrapExpressionWithSideEffects helpers
      (makeRaiseExceptionReplacementExpression helpers
         (ConstantRef self)
         "TypeError"
         ("'" ++ type_name (type_of (constant self)) ++ "' object is not callable")%string)
      call_node
      (extractPreCallSideEffects helpers call_node) in
  let constraint_collection :=
    notify constraint_collection (onExceptionRaiseExit TypeError) in
  ((new_node, Some "new_raise",
    Some "Predicted call of constant value to exception raise."),
   constraint_collection).

Definition getCompileTimeConstant (self : ConstantRefNode) : pyvalue :=
  constant self.

Definition getSourceReference (self : ConstantRefNode) : source_ref :=
  source_reference self.

Definition getIterationValue (env : Environment) (self : ConstantRefNode)
           (count : Z) : M ConstantRefNode :=
  size <- lift (len (constant self)) ;;
  assert (count <? size) ;;;
  element <- lift (subscript (constant self) count) ;;
  makeConstantRefNode env element (source_reference self) false.

Definition getIterationValues (env : Environment) (self : ConstantRefNode)
  : M (list ConstantRefNode) :=
  let source_ref := getSourceReference self in
  values <- lift (iterate (constant self)) ;;
  for_each values
    (fun made value =>
       n <- makeConstantRefNode env value source_ref (user_provided self) ;;
       ret (made ++ [n]))
    [].

Definition isMapping (self : ConstantRefNode) : bool :=
  pytype_eqb (type_of (constant self)) TDict.

Definition getMappingPairs (env : Environment) (self : ConstantRefNode)
  : M (list item) :=
  assert (isMapping self) ;;;
  let pairs := [] in
  let source_ref := getSourceReference self in
  items <- lift (iterItems (constant self)) ;;
  for_each items
    (fun pairs '(key, value) =>
       k <- makeConstantRefNode env key source_ref false ;;
       v <- makeConstantRefNode env value source_ref false ;;
       lift (list_append pairs [ItemNode k; ItemNode v]))
    pairs.

Definition getMappingStringKeyPairs (env : Environment) (self : ConstantRefNode)
  : M (list item) :=
  assert (isMapping self) ;;;
  let pairs := [] in
  let source_ref := getSourceReference self in
  items <- lift (iterItems (constant self)) ;;
  for_each items
    (fun pairs '(key, value) =>
       v <- makeConstantRefNode env value source_ref false ;;
       lift (list_append pairs [ItemTuple [ItemKey key; ItemNode v]]))
    pairs.

Definition mayHaveSideEffects (self : ConstantRefNode) : bool := false.

Definition extractSideEffects (self : ConstantRefNode) : list node := [].

(** [computeExpressionIter1].  [self.replaceWith(result)] writes the slot
    of the parent that holds [self]; that slot is the state
    [parent_slot], and its new content is returned last. *)
Definition computeExpressionIter1 (env : Environment) (self : ConstantRefNode)
           (iter_node : node) (constraint_collection : Collection)
           (parent_slot : node) : M (Result * Collection * node) :=
  if type_in (type_of (constant self)) [TList; TSet; TFrozenset; TDict] then
    elements <- lift (iterate (constant self)) ;;
    result <- makeConstantRefNode env (PyTuple elements)
                (getSourceReference self) (user_provided self) ;;
    let parent_slot := ConstantRef result in
    ret ((iter_node, Some "new_constant",
          Some ("Iteration over constant "
                ++ type_name (type_of (constant self))
                ++ " changed to tuple.")%string),
         constraint_collection, parent_slot)
  else
    let constraint_collection :=
      if negb (isIterableConstant env (constant self))
      then notify constraint_collection (onExceptionRaiseExit TypeError)
      else constraint_collection in
    ret ((iter_node, None, None), constraint_collection, parent_slot).

End ConstantRefNodes.

(* ===================================================================== *)
(** * nuitka/nodes/BuiltinTypeNodes.py                                    *)
(* ===================================================================== *)

Module BuiltinTypeNodes.
Export ConstantRefNodes.
Local Open Scope list_scope.

Module ExpressionBuiltinIntLongBase.

(** The class attribute set by the [try: int(base = 2)] statement. *)
Definition base_only_value (env : Environment) : bool :=
  match base_2 env builtin_int with
  | None => false
  | Some _ => true
  end.

Definition __init__ (env : Environment) (helpers : Helpers) (b : builtin)
           (value base : option node) (source_ref : source_ref) : M node :=
  value <-
    match value with
    | None =>
        if base_only_value env then
          zero <- makeConstantReplacementNode helpers str_zero source_ref ;;
          ret (Some zero)
        else ret None
    | Some _ => ret value
    end ;;
  ret (BuiltinIntLong b value base source_ref).

(** [computeExpression] of the node
    [BuiltinIntLong b value base source_ref]. *)
Definition computeExpression (env : Environment) (helpers : Helpers)
           (b : builtin) (value base : option node) (source_ref : source_ref)
           (constraint_collection : Collection) : M (Result * Collection) :=
  let self := BuiltinIntLong b value base source_ref in
  let generic given_values :=
    computeBuiltinSpec helpers self constraint_collection given_values in
  match value with
  | None =>
      match base with
      | Some _ =>
          if negb (base_only_value env) then
            getCompileTimeComputationResult helpers constraint_collection
              self (call_base_2 b)
              (builtin_name b ++ " built-in call with only base argument")%string
          else generic []
      | None => generic []
      end
  | Some value =>
      match base with
      | None => generic [value]
      | Some base => generic [value; base]
      end
  end.

End ExpressionBuiltinIntLongBase.

Module ExpressionBuiltinBytearray.

(** [__init__].  [ExpressionBuiltinTypeBase.__init__], which the three
    files do not define, is taken to put [value] into the slot [value],
    as the specification says of operand slots. *)
Definition __init__ (env : Environment) (value : option node)
           (source_ref : source_ref) : M node :=
  value <-
    match value with
    | None =>
        empty <- makeConstantRefNode env (bytes_literal env []) source_ref false ;;
        ret (ConstantRef empty)
    | Some value => ret value
    end ;;
  ret (BuiltinBytearray (Some value) source_ref).

Definition computeExpression (self : node) (constraint_collection : Collection)
  : Result :=
  (self, None, None).

End ExpressionBuiltinBytearray.

End BuiltinTypeNodes.

(* ===================================================================== *)
(** * The collaborators as the specification describes them               *)
(* ===================================================================== *)

Module SpecModel.
Export BuiltinTypeNodes.
Local Open Scope list_scope.

Section Fold.
Variable env : Environment.

(** The native constructor of a built-in on constant operands: the
    evaluation function of the table of constructor specs, which is
    configuration outside the three files. *)
Variable native : builtin -> list pyvalue -> outcome pyvalue.

Definition exception_name (e : exn) : string :=
  match e with
  | AssertionError => "AssertionError"
  | TypeError => "TypeError"
  | KeyError => "KeyError"
  | IndexError => "IndexError"
  | AttributeError => "AttributeError"
  | ValueError => "ValueError"
  end.

Definition node_source_ref (n : node) : source_ref :=
  match n with
  | ConstantRef c => source_reference c
  | BuiltinBytearray _ sr | BuiltinIntLong _ _ _ sr
  | RaiseException _ _ sr | OtherNode _ sr => sr
  | SideEffects _ _ => SourceRef EmptyString
  end.

(** The operands of a node: the slots that are not omitted, in
    declared order. *)
Definition operands (n : node) : list node :=
  let present (slot : option node) :=
    match slot with Some v => [v] | None => [] end in
  match n with
  | BuiltinBytearray value _ => present value
  | BuiltinIntLong _ value base _ => present value ++ present base
  | _ => []
  end.

(** What is kept of a discarded operand: nothing of a constant, the
    operand itself otherwise. *)
Definition kept_side_effects (n : node) : list node :=
  match n with
  | ConstantRef _ => []
  | _ => [n]
  end.

Fixpoint constant_values (given_values : list node) : option (list pyvalue) :=
  match given_values with
  | [] => Some []
  | ConstantRef c :: rest =>
      match constant_values rest with
      | Some vs => Some (constant c :: vs)
      | None => None
      end
  | _ :: _ => None
  end.

(** Running the computation: [None] when an operand is not a constant. *)
Definition run (c : computation) : option (outcome pyvalue) :=
  match c with
  | call_base_2 b =>
      Some match base_2 env b with
           | Some v => Return v
           | None => Raise TypeError
           end
  | simulateCall b given_values =>
      match constant_values given_values with
      | Some vs => Some (native b vs)
      | None => None
      end
  end.

(** Modelled from the spec: [getCompileTimeComputationResult] of the
    constraint collection is not among the sources.  It runs the
    computation; on success the node is replaced by a constant node
    holding the result, tag [new_constant]; on a fault it is replaced
    by a node that raises this fault, in front of which the side
    effects of the operands are kept, tag [new_raise], and the
    collection is told that the fault may occur. *)
Definition getCompileTimeComputationResult (constraint_collection : Collection)
           (n : node) (c : computation) (description : string)
  : M (Result * Collection) :=
  match run c with
  | Some (Return v) =>
      made <- makeConstantRefNode env v (node_source_ref n) false ;;
      ret ((ConstantRef made, Some "new_constant", Some description),
           constraint_collection)
  | Some (Raise e) =>
      ret ((SideEffects
              (flat_map kept_side_effects (operands n))
              (RaiseException (exception_name e) EmptyString (node_source_ref n)),
            Some "new_raise", Some description),
           notify constraint_collection (onExceptionRaiseExit e))
  | None => ret ((n, None, None), constraint_collection)
  end.

(** Modelled from the spec: [computeBuiltinSpec] of
    [ExpressionSpecBasedComputationMixin] is not among the sources.
    The shared fold: when every operand handed over is a constant
    node the native constructor is evaluated, otherwise the node is
    left as it is. *)
Definition computeBuiltinSpec (self : node) (constraint_collection : Collection)
           (given_values : list node) : M (Result * Collection) :=
  match self with
  | BuiltinIntLong b _ _ _ =>
      match constant_values given_values with
      | Some _ =>
          getCompileTimeComputationResult constraint_collection self
            (simulateCall b given_values)
            ("Built-in call to '" ++ builtin_name b ++ "' pre-computed.")%string
      | None => ret ((self, None, None), constraint_collection)
      end
  | _ => ret ((self, None, None), constraint_collection)
  end.

(** Modelled from the spec: the helpers of [NodeMakingHelpers] are not
    among the sources.  A replacement constant is made by the factory
    at the source reference of the node it replaces; side effects are
    kept in front of the new node. *)
Definition helpers : Helpers := {|
  makeRaiseExceptionReplacementExpression expression exception_type exception_value :=
    RaiseException exception_type exception_value (node_source_ref expression);
  wrapExpressionWithSideEffects new_node old_node side_effects :=
    SideEffects side_effects new_node;
  extractPreCallSideEffects call_node := operands call_node;
  makeConstantReplacementNode c sr :=
    made <- makeConstantRefNode env c sr false ;; ret (ConstantRef made);
  Nodes.getCompileTimeComputationResult := getCompileTimeComputationResult;
  Nodes.computeBuiltinSpec := computeBuiltinSpec
|}.

End Fold.

End SpecModel.

(* ===================================================================== *)
(** * Reading the encoded text back: the notions used in the proofs       *)
(* ===================================================================== *)

Module Reading.
Import Chars CStrings CLiteral.

(** What one byte adds to [result] and the flag it leaves. *)
Definition piece (octal : bool) (c : byte) : string :=
  fst (encode_step (EmptyString, octal) c).

Definition flag_after (c : byte) : bool :=
  snd (encode_step (EmptyString, false) c).

Fixpoint pieces (octal : bool) (value : list byte) : string :=
  match value with
  | [] => EmptyString
  | c :: value' => piece octal c ++ pieces (flag_after c) value'
  end.

Definition pattern : string := literal_break ++ str1 backslash.

Definition then_scan (st : lit_state) (s : string)
           (r : option (lit_state * list byte)) : option (lit_state * list byte) :=
  match r with
  | None => None
  | Some (st', out) =>
      match scan st' s with
      | None => None
      | Some (st'', out') => Some (st'', (out ++ out')%list)
      end
  end.

(** Whether the byte is written as an octal escape. *)
Definition escaped (c : byte) : bool := flag_after c.

(** The reader's state once the bytes up to [prev] have been read back,
    and the byte it still holds in an unfinished escape. *)
Definition reader_after (prev : option byte) : lit_state * list byte :=
  match prev with
  | None => (Inside, [])
  | Some c =>
      if escaped c then
        if (Byte.to_N c <? 8)%N then (Octal1 (Byte.to_N c), [c])
        else if (Byte.to_N c <? 64)%N then (Octal2 (Byte.to_N c), [c])
        else (Inside, [])
      else (Inside, [])
  end.

Definition flag_of (prev : option byte) : bool :=
  match prev with
  | None => false
  | Some c => flag_after c
  end.

Definition emitted (c : byte) : list byte :=
  match snd (reader_after (Some c)) with
  | [] => [c]
  | _ => []
  end.

Definition held (b : byte) (r : option (lit_state * list byte)) :=
  match r with
  | None => None
  | Some (st, out) => Some (st, b :: out)
  end.

Definition long_payload : list byte := repeat x41 (N.to_nat 16001).

Definition short_payload : list byte := [x00; x31; x22; x38].

(** A text in which no dot is followed by a dot, as every dotted module
    name is. *)
Fixpoint no_double_dot (t : text) : bool :=
  match t with
  | c1 :: t' =>
      match t' with
      | c2 :: _ => negb ((c1 =? dot)%N && (c2 =? dot)%N) && no_double_dot t'
      | [] => true
      end
  | [] => true
  end.

Definition is_digit (c : N) : Prop := (48 <= c <= 57)%N.

(** The three ways [encodePythonIdentifierToC] writes a character. *)
Inductive written (c : N) : text -> Prop :=
| written_same : is_identifier_char c = true -> c <> dollar -> written c [c]
| written_dot : c = dot -> written c [dollar]
| written_escape :
    is_identifier_char c = false -> c <> dot ->
    written c (dollar :: dollar :: format_d c ++ [dollar])%list.

End Reading.

(* ===================================================================== *)
(** * Notions and concrete inputs used in the statements                  *)
(* ===================================================================== *)

Module Inputs.
Import BuiltinTypeNodes.
Import ExpressionBuiltinIntLongBase.
Local Open Scope list_scope.
Local Open Scope Z_scope.

Definition max_size (env : Environment) (c : pyvalue) : Z :=
  if type_in (type_of c) [str env; unicode env] then 1000 else 256.

(** The records one construction adds to the log. *)
Definition warnings (env : Environment) (c : pyvalue) (sr : source_ref)
           (up : bool) : list LogRecord :=
  match len c with
  | Return size =>
      if negb up && isDebug env && (size >? max_size env c)
      then [mkLogRecord too_large_format (type_of c) size (getAsString sr)]
      else []
  | Raise _ => []
  end.

Definition iterable_types : list pytype :=
  [TStr; TUnicode; TBytes; TTuple; TList; TSet; TFrozenset; TDict].

(** A Python 2.7 host: every value of the model is a constant,
    [int(base = 2)] is refused. *)
Definition python27 (debug : bool) : Environment := {|
  python_version := 270;
  isDebug := debug;
  isConstant := fun _ => true;
  isIterableConstant := fun c => type_in (type_of c) iterable_types;
  base_2 := fun _ => None
|}.

(** A Python 3 host on which [int(base = 2)] gives zero. *)
Definition python32 (debug : bool) : Environment := {|
  python_version := 320;
  isDebug := debug;
  isConstant := fun _ => true;
  isIterableConstant := fun c => type_in (type_of c) iterable_types;
  base_2 := fun _ => Some (PyInt 0)
|}.

Definition here : source_ref := SourceRef "module.py:1".

Definition set_123 : ConstantRefNode :=
  mkConstantRef EXPRESSION_CONSTANT_SET_REF
                (PySet [PyInt 1; PyInt 2; PyInt 3]) true here.

Definition int_7 : ConstantRefNode :=
  mkConstantRef EXPRESSION_CONSTANT_INT_REF (PyInt 7) true here.

Definition tuple_12 : ConstantRefNode :=
  mkConstantRef EXPRESSION_CONSTANT_TUPLE_REF
                (PyTuple [PyInt 1; PyInt 2]) true here.

Definition dict_12 : ConstantRefNode :=
  mkConstantRef EXPRESSION_CONSTANT_DICT_REF
                (PyDict [(PyInt 1, PyInt 2)]) true here.

Definition iter_node : node := OtherNode "EXPRESSION_BUILTIN_ITER1" here.

Definition not_callable (self : ConstantRefNode) : string :=
  ("'" ++ type_name (type_of (constant self)) ++ "' object is not callable")%string.

Definition list_of_257 : pyvalue := PyList (repeat PyNone 257).

(** The elements a list, set, frozenset or dictionary is iterated
    over: its members, the keys for a dictionary. *)
Definition members (c : pyvalue) : option (list pyvalue) :=
  match c with
  | PyList l | PySet l | PyFrozenset l => Some l
  | PyDict items => Some (map fst items)
  | _ => None
  end.

Definition changed_to_tuple (self : ConstantRefNode) : string :=
  ("Iteration over constant " ++ type_name (type_of (constant self))
   ++ " changed to tuple.")%string.

(** What a pair of [getMappingStringKeyPairs] holds. *)
Definition key_and_value (i : item) : option (pyvalue * pyvalue) :=
  match i with
  | ItemTuple [ItemKey key; ItemNode v] => Some (key, constant v)
  | _ => None
  end.

Definition accepted (env : Environment) (sr : source_ref) (c : pyvalue) : Prop :=
  forall log, exists n log', makeConstantRefNode env c sr false log = (Return n, log').

(** The class of the node the factory makes for the literal of no
    bytes: a byte string is a [str] on Python 2. *)
Definition empty_bytes_kind (env : Environment) : kind :=
  if python3 env then EXPRESSION_CONSTANT_BYTES_REF
  else EXPRESSION_CONSTANT_STR_REF.

Definition empty_bytes (env : Environment) (sr : source_ref) : ConstantRefNode :=
  mkConstantRef (empty_bytes_kind env) (bytes_literal env []) false sr.

Definition only_base (b : builtin) : string :=
  (builtin_name b ++ " built-in call with only base argument")%string.

Definition pre_computed (b : builtin) : string :=
  ("Built-in call to '" ++ builtin_name b ++ "' pre-computed.")%string.

(** The node of the constant [2], as a base operand. *)
Definition two : node :=
  ConstantRef (mkConstantRef EXPRESSION_CONSTANT_INT_REF (PyInt 2) true here).

(** A native [int] and [long] on the operand lists used below. *)
Definition native_zero (b : builtin) (operands : list pyvalue) : outcome pyvalue :=
  match operands with
  | [] | [PyStr [48%N]] | [PyStr [48%N]; PyInt 2] => Return (PyInt 0)
  | _ => Raise ValueError
  end.

Definition helpers27 : Helpers := SpecModel.helpers (python27 false) native_zero.
Definition helpers32 : Helpers := SpecModel.helpers (python32 false) native_zero.

Definition zero_operand : ConstantRefNode :=
  mkConstantRef EXPRESSION_CONSTANT_STR_REF str_zero false here.

Definition zero_result : ConstantRefNode :=
  mkConstantRef EXPRESSION_CONSTANT_INT_REF (PyInt 0) false here.

End Inputs.

(* ===================================================================== *)
(** * Further notions about the encoded texts                             *)
(* ===================================================================== *)

Module TextShape.
Import Chars CStrings.

(** A character that stands for itself in a line of C source: printable
    or DEL, and not a question mark. *)
Definition plain_char (c : ascii) : bool :=
  ((32 <=? N_of_ascii c) && (N_of_ascii c <=? 127))%N
  && negb (Ascii.eqb c question).

Fixpoint every_char (p : ascii -> bool) (s : string) : bool :=
  match s with
  | EmptyString => true
  | String c s' => p c && every_char p s'
  end.

(** A character of the class a-z, A-Z, 0-9, underscore, or the dollar
    sign. *)
Definition identifier_or_dollar (c : N) : Prop :=
  is_identifier_char c = true \/ c = dollar.

(** A payload of exactly one chunk, and one more byte. *)
Definition chunk_payload : list byte := repeat x41 (N.to_nat 16000).
Definition one_byte : list byte := [x42].

End TextShape.

(* ===================================================================== *)
(** * nuitka/nodes/ConstantRefNodes.py, further methods                   *)
(* ===================================================================== *)

Module MoreConstantRefNodes.
Import ConstantRefNodes Inputs.
Local Open Scope list_scope.
Local Open Scope Z_scope.

Definition isBoolConstant (self : ConstantRefNode) : bool :=
  pytype_eqb (type_of (constant self)) TBool.

Definition isUnicodeConstant (env : Environment) (self : ConstantRefNode) : bool :=
  pytype_eqb (type_of (constant self)) (unicode env).

Definition isStringConstant (env : Environment) (self : ConstantRefNode) : bool :=
  pytype_eqb (type_of (constant self)) (str env).

Definition hasShapeDictionaryExact (self : ConstantRefNode) : bool :=
  pytype_eqb (type_of (constant self)) TDict.

(** The loop of [isMappingWithConstantStringKeys] over the keys, left at
    the first key that is neither a [str] nor a [unicode]. *)
Fixpoint string_keys (env : Environment) (keys : list pyvalue) : bool :=
  match keys with
  | [] => true
  | key :: keys' =>
      if negb (type_in (type_of key) [str env; unicode env]) then false
      else string_keys env keys'
  end.

Definition isMappingWithConstantStringKeys (env : Environment)
           (self : ConstantRefNode) : outcome bool :=
  if isMapping self then
    match iterate (constant self) with
    | Return keys => Return (string_keys env keys)
    | Raise e => Raise e
    end
  else Raise AssertionError.

(** [getConstantIterationLength] of [nuitka.Constants] is not defined in
    the three files: the methods below take it as an argument. *)
Definition getIterationLength (env : Environment)
           (getConstantIterationLength : pyvalue -> outcome Z)
           (self : ConstantRefNode) : outcome (option Z) :=
  if isIterableConstant env (constant self)
  then map_outcome Some (getConstantIterationLength (constant self))
  else Return None.

Definition isKnownToBeIterable (env : Environment)
           (getConstantIterationLength : pyvalue -> outcome Z)
           (self : ConstantRefNode) (count : option Z) : outcome bool :=
  if isIterableConstant env (constant self) then
    match count with
    | None => Return true
    | Some count =>
        map_outcome (fun length => length =? count)
                    (getConstantIterationLength (constant self))
    end
  else Return false.

Definition isKnownToBeIterableAtMin (env : Environment)
           (getConstantIterationLength : pyvalue -> outcome Z)
           (self : ConstantRefNode) (count : Z) : outcome bool :=
  match getIterationLength env getConstantIterationLength self with
  | Return (Some length) => Return (length >=? count)
  | Return None => Return false
  | Raise e => Raise e
  end.

Definition canPredictIterationValues (env : Environment)
           (getConstantIterationLength : pyvalue -> outcome Z)
           (self : ConstantRefNode) : outcome bool :=
  isKnownToBeIterable env getConstantIterationLength self None.

(** ** Notions used in the statements *)

Definition kind_eqb (a b : kind) : bool :=
  match a, b with
  | EXPRESSION_CONSTANT_NONE_REF, EXPRESSION_CONSTANT_NONE_REF
  | EXPRESSION_CONSTANT_TRUE_REF, EXPRESSION_CONSTANT_TRUE_REF
  | EXPRESSION_CONSTANT_FALSE_REF, EXPRESSION_CONSTANT_FALSE_REF
  | EXPRESSION_CONSTANT_ELLIPSIS_REF, EXPRESSION_CONSTANT_ELLIPSIS_REF
  | EXPRESSION_CONSTANT_DICT_REF, EXPRESSION_CONSTANT_DICT_REF
  | EXPRESSION_CONSTANT_TUPLE_REF, EXPRESSION_CONSTANT_TUPLE_REF
  | EXPRESSION_CONSTANT_LIST_REF, EXPRESSION_CONSTANT_LIST_REF
  | EXPRESSION_CONSTANT_SET_REF, EXPRESSION_CONSTANT_SET_REF
  | EXPRESSION_CONSTANT_INT_REF, EXPRESSION_CONSTANT_INT_REF
  | EXPRESSION_CONSTANT_LONG_REF, EXPRESSION_CONSTANT_LONG_REF
  | EXPRESSION_CONSTANT_STR_REF, EXPRESSION_CONSTANT_STR_REF
  | EXPRESSION_CONSTANT_UNICODE_REF, EXPRESSION_CONSTANT_UNICODE_REF
  | EXPRESSION_CONSTANT_BYTES_REF, EXPRESSION_CONSTANT_BYTES_REF
  | EXPRESSION_CONSTANT_FLOAT_REF, EXPRESSION_CONSTANT_FLOAT_REF
  | EXPRESSION_CONSTANT_COMPLEX_REF, EXPRESSION_CONSTANT_COMPLEX_REF
  | EXPRESSION_CONSTANT_SLICE_REF, EXPRESSION_CONSTANT_SLICE_REF
  | EXPRESSION_CONSTANT_TYPE_REF, EXPRESSION_CONSTANT_TYPE_REF
  | EXPRESSION_CONSTANT_DICT_EMPTY_REF, EXPRESSION_CONSTANT_DICT_EMPTY_REF => true
  | _, _ => false
  end.

Definition kind_in (k : kind) (ks : list kind) : bool := existsb (kind_eqb k) ks.

(** The factory makes a node of the value, with the flag [up]. *)
Definition accepted_as (env : Environment) (sr : source_ref) (up : bool)
           (c : pyvalue) : Prop :=
  forall log, exists n log', makeConstantRefNode env c sr up log = (Return n, log').

(** The raw key of a pair of [getMappingStringKeyPairs]. *)
Definition item_key (i : item) : option pyvalue :=
  match i with
  | ItemTuple [ItemKey key; ItemNode _] => Some key
  | _ => None
  end.

Definition is_string (env : Environment) (c : pyvalue) : bool :=
  type_in (type_of c) [str env; unicode env].

(** ** Concrete inputs *)

Definition empty_dict_node : ConstantRefNode :=
  mkConstantRef EXPRESSION_CONSTANT_DICT_EMPTY_REF (PyDict []) true here.

Definition dict_a1 : ConstantRefNode :=
  mkConstantRef EXPRESSION_CONSTANT_DICT_REF
                (PyDict [(PyStr [97%N], PyInt 1)]) true here.

Definition int_2 : ConstantRefNode :=
  mkConstantRef EXPRESSION_CONSTANT_INT_REF (PyInt 2) false here.

Definition tuple_123 : ConstantRefNode :=
  mkConstantRef EXPRESSION_CONSTANT_TUPLE_REF
                (PyTuple [PyInt 1; PyInt 2; PyInt 3]) true here.

End MoreConstantRefNodes.

(* ===================================================================== *)
(** * nuitka/nodes/BuiltinTypeNodes.py, the text constructor              *)
(* ===================================================================== *)

Module MoreBuiltinTypeNodes.
Import BuiltinTypeNodes.
Local Open Scope list_scope.

Module ExpressionBuiltinUnicodeBase.

(** The calls the collection receives here: those it can receive
    elsewhere, and the two made by this method. *)
Inductive escape_call : Type :=
| recorded (call : collection_call)
| removeKnowledge (arg : option node)
| onControlFlowEscape (n : node).

Definition EscapeCollection : Type := list escape_call.

(** [args and args[-1] is None] *)
Definition ends_with_none (args : list (option node)) : bool :=
  match rev args with
  | None :: _ => true
  | _ => false
  end.

Definition inspect {A} (a : A) : {b : A | a = b} := exist _ a eq_refl.

(** The loop [while args and args[-1] is None: del args[-1]]. *)
Equations? trim_args (args : list (option node)) : list (option node)
  by wf (List.length args) lt :=
  trim_args args with inspect (ends_with_none args) := {
    | exist _ true E => trim_args (removelast args)
    | exist _ false _ => args }.
Proof.
  destruct args as [|x args] using rev_ind; [discriminate E|].
  rewrite removelast_last, length_app. cbn. lia.
Qed.

(** [computeExpression] of the node [self], whose slots hold [value],
    [encoding] and [errors].  [computeBuiltinSpec] is not defined in the
    three files and is an argument; it is handed the operands as they
    are, an omitted one in front of a present one included. *)
Definition computeExpression
           (computeBuiltinSpec :
              node -> EscapeCollection -> list (option node)
              -> M (Result * EscapeCollection))
           (self : node) (value encoding errors : option node)
           (constraint_collection : EscapeCollection)
  : M (Result * EscapeCollection) :=
  let args := trim_args [value; encoding; errors] in
  let constraint_collection :=
    fold_left (fun collection arg => collection ++ [removeKnowledge arg])
              args constraint_collection in
  let constraint_collection :=
    constraint_collection ++ [onControlFlowEscape self] in
  computeBuiltinSpec self constraint_collection args.

End ExpressionBuiltinUnicodeBase.

End MoreBuiltinTypeNodes.

(* ===================================================================== *)
(** * Properties of the C string encoding                                 *)
(* ===================================================================== *)

Module CStringsFacts.
Import Chars CStrings CLiteral Reading.

(** ** The loop of [_encodePythonStringToC], one byte at a time *)

Lemma append_assoc (a b c : string) : (a ++ b) ++ c = a ++ (b ++ c).
Proof. induction a as [|x a IH]; cbn; [reflexivity | now rewrite IH]. Qed.

Lemma append_nil_r (a : string) : a ++ EmptyString = a.
Proof. induction a as [|x a IH]; cbn; [reflexivity | now rewrite IH]. Qed.

Lemma encode_step_split (result : string) (octal : bool) (c : byte) :
  encode_step (result, octal) c = (result ++ piece octal c, flag_after c).
Proof.
  unfold piece, flag_after, encode_step.
  destruct (byte_in c always_escaped); cbn [fst snd]; [reflexivity|].
  destruct ((32 <=? Byte.to_N c)%N && (Byte.to_N c <=? 127)%N);
    cbn [fst snd]; [|reflexivity].
  destruct (octal && byte_in c digits); cbn [fst snd andb];
    [now rewrite append_assoc | reflexivity].
Qed.

Lemma fold_encode_step (value : list byte) :
  forall result octal,
    fst (fold_left encode_step value (result, octal))
    = result ++ pieces octal value.
Proof.
  induction value as [|c value IH]; intros result octal; cbn [fold_left pieces].
  - cbn. now rewrite append_nil_r.
  - rewrite encode_step_split, IH. apply append_assoc.
Qed.

Lemma encode_loop_pieces (value : list byte) :
  fst (encode_loop value) = pieces false value.
Proof. unfold encode_loop. now rewrite fold_encode_step. Qed.

(** ** The final [replace] never finds its pattern *)

Lemma replace_piece (octal : bool) (c : byte) (rest : string) :
  replace_from 0 pattern (str1 backslash) (piece octal c ++ rest)
  = piece octal c ++ replace_from 0 pattern (str1 backslash) rest.
Proof. destruct octal, c; vm_compute; reflexivity. Qed.

Lemma replace_pieces (value : list byte) :
  forall octal,
    replace (pieces octal value) pattern (str1 backslash) = pieces octal value.
Proof.
  change (forall octal,
    replace_from 0 pattern (str1 backslash) (pieces octal value)
    = pieces octal value).
  induction value as [|c value IH]; intro octal; cbn [pieces].
  - reflexivity.
  - now rewrite replace_piece, IH.
Qed.

Lemma encode_unfold (value : list byte) :
  _encodePythonStringToC value
  = String dquote (pieces false value ++ str1 dquote).
Proof.
  unfold _encodePythonStringToC.
  rewrite encode_loop_pieces.
  change (literal_break ++ str1 backslash) with pattern.
  now rewrite replace_pieces.
Qed.

(** ** Reading the pieces back *)

Lemma scan_app (a b : string) :
  forall st, scan st (a ++ b) = then_scan st b (scan st a).
Proof.
  induction a as [|x a IH]; intro st; cbn [scan append then_scan].
  - destruct (scan st b) as [[st' out]|]; reflexivity.
  - destruct (step st x) as [[st1 out1]|]; [|reflexivity].
    rewrite IH. destruct (scan st1 a) as [[st2 out2]|]; [|reflexivity].
    cbn [then_scan].
    destruct (scan st2 b) as [[st3 out3]|]; [|reflexivity].
    now rewrite app_assoc.
Qed.

Lemma emitted_pending (c : byte) :
  [c] = (emitted c ++ snd (reader_after (Some c)))%list.
Proof. destruct c; vm_compute; reflexivity. Qed.

Lemma scan_piece_inside (octal : bool) (c : byte) :
  scan Inside (piece octal c)
  = Some (fst (reader_after (Some c)), emitted c).
Proof. destruct octal, c; vm_compute; reflexivity. Qed.

(** After an escape the next piece never starts with an octal digit. *)
Lemma piece_head (c : byte) :
  exists x s, piece true c = String x s /\ octal_digit x = None.
Proof. destruct c; eexists _, _; (split; [reflexivity | vm_compute; reflexivity]). Qed.

Lemma scan_flush (st : lit_state) (b : byte) (x : ascii) (s : string) :
  st = Octal1 (Byte.to_N b) \/ st = Octal2 (Byte.to_N b) ->
  octal_digit x = None ->
  scan st (String x s) = held b (scan Inside (String x s)).
Proof.
  intros Hst Hx. cbn [scan].
  assert (Hstep : step st x = held b (step Inside x)).
  { destruct Hst as [-> | ->]; cbn [step]; rewrite Hx; unfold flush;
      rewrite Byte.of_to_N; destruct (step_inside x) as [[st' out]|]; reflexivity. }
  rewrite Hstep. destruct (step Inside x) as [[st' out]|]; cbn [held]; [|reflexivity].
  destruct (scan st' s) as [[st'' out']|]; reflexivity.
Qed.

Lemma reader_after_cases (prev : option byte) :
  reader_after prev = (Inside, [])
  \/ exists b, prev = Some b /\ flag_of prev = true
       /\ snd (reader_after prev) = [b]
       /\ (fst (reader_after prev) = Octal1 (Byte.to_N b)
           \/ fst (reader_after prev) = Octal2 (Byte.to_N b)).
Proof.
  destruct prev as [b|]; [|now left].
  unfold reader_after, flag_of, escaped.
  destruct (flag_after b) eqn:E; [|now left].
  destruct (Byte.to_N b <? 8)%N; [right; exists b; cbn; auto|].
  destruct (Byte.to_N b <? 64)%N; [right; exists b; cbn; auto|].
  now left.
Qed.

Lemma scan_piece (prev : option byte) (c : byte) :
  scan (fst (reader_after prev)) (piece (flag_of prev) c)
  = Some (fst (reader_after (Some c)),
          (snd (reader_after prev) ++ emitted c)%list).
Proof.
  destruct (reader_after_cases prev) as [E | (b & -> & Hflag & Hheld & Hst)].
  - rewrite E. cbn [fst snd app]. apply scan_piece_inside.
  - rewrite Hheld, Hflag.
    destruct (piece_head c) as (x & s & Hp & Hx).
    pose proof (scan_piece_inside true c) as Hin.
    rewrite Hp in *.
    rewrite (scan_flush _ b x s Hst Hx), Hin. reflexivity.
Qed.

Lemma scan_pieces (value : list byte) :
  forall prev, exists last out,
    scan (fst (reader_after prev)) (pieces (flag_of prev) value)
    = Some (fst (reader_after last), out)
    /\ (snd (reader_after prev) ++ value = out ++ snd (reader_after last))%list.
Proof.
  induction value as [|c value IH]; intro prev; cbn [pieces].
  - exists prev, []. split; [reflexivity | now rewrite app_nil_r].
  - destruct (IH (Some c)) as (last & out & Hscan & Hout).
    exists last, ((snd (reader_after prev) ++ emitted c) ++ out)%list.
    rewrite scan_app, scan_piece. cbn [then_scan flag_of] in *.
    rewrite Hscan. split; [reflexivity|].
    rewrite <- !app_assoc, <- Hout.
    change (c :: value) with ([c] ++ value)%list.
    now rewrite (emitted_pending c), <- !app_assoc.
Qed.

Lemma scan_closing_quote (last : option byte) :
  scan (fst (reader_after last)) (str1 dquote)
  = Some (Outside, snd (reader_after last)).
Proof.
  destruct (reader_after_cases last) as [E | (b & -> & _ & Hheld & Hst)].
  - rewrite E. reflexivity.
  - rewrite Hheld. unfold str1.
    rewrite (scan_flush _ b dquote EmptyString Hst); reflexivity.
Qed.

Lemma scan_opening_quote (s : string) :
  scan Outside (String dquote s) = scan Inside s.
Proof.
  cbn [scan step]. change (is_blank dquote) with false.
  change (Ascii.eqb dquote dquote) with true. cbv iota.
  destruct (scan Inside s) as [[st out]|]; reflexivity.
Qed.

(** One literal reads back as the bytes it was made from. *)
Lemma scan_literal (value : list byte) :
  scan Outside (_encodePythonStringToC value) = Some (Outside, value).
Proof.
  rewrite encode_unfold, scan_opening_quote.
  destruct (scan_pieces value None) as (last & out & Hscan & Hout).
  cbn [reader_after flag_of fst snd app] in Hscan, Hout.
  rewrite scan_app, Hscan. cbn [then_scan].
  rewrite scan_closing_quote. now rewrite Hout.
Qed.

(** ** The chunks *)

Lemma slices_app {A} (n : N) (l : list A) :
  (slice_to n l ++ slice_from n l)%list = l.
Proof. apply firstn_skipn. Qed.

Lemma scan_encode_more (result : string) (value : list byte) :
  forall done,
    scan Outside result = Some (Outside, done) ->
    scan Outside (encode_more result value)
    = Some (Outside, (done ++ value)%list).
Proof.
  funelim (encode_more result value); intros done Hdone; simp encode_more.
  - now rewrite app_nil_r.
  - rewrite (H (done ++ slice_to chunk (b :: v))%list).
    + now rewrite <- app_assoc, slices_app.
    + rewrite scan_app, Hdone. cbn [then_scan].
      change (str1 space ++ ?s) with (String space s).
      cbn [scan step]. change (is_blank space) with true. cbv iota.
      rewrite scan_literal. cbn [app]. reflexivity.
Qed.

Lemma decode_encode (value : list byte) :
  decode (encodePythonStringToC value) = Some value.
Proof.
  unfold decode, encodePythonStringToC.
  rewrite (scan_encode_more _ _ (slice_to chunk value)).
  - now rewrite slices_app.
  - apply scan_literal.
Qed.

Lemma decode_literal (value : list byte) :
  decode (_encodePythonStringToC value) = Some value.
Proof. unfold decode. now rewrite scan_literal. Qed.

(** The text gathered so far is a prefix of what the loop returns. *)
Lemma encode_more_prefix (n : nat) :
  forall value result,
    (List.length value <= n)%nat ->
    encode_more result value = result ++ encode_more EmptyString value.
Proof.
  induction n as [|n IH]; intros [|b v] result Hn; simp encode_more;
    try now rewrite append_nil_r.
  - cbn in Hn. lia.
  - assert (Hrest : (List.length (slice_from chunk (b :: v)) <= n)%nat).
    { unfold slice_from. rewrite length_skipn. cbn [List.length] in *.
      unfold chunk. lia. }
    rewrite (IH _ (result ++ _) Hrest), (IH _ (EmptyString ++ _) Hrest).
    cbn [append]. now rewrite !append_assoc.
Qed.

(** X2: a payload of at most 16000 bytes is written as one literal, the
    one [_encodePythonStringToC] makes of it. *)
Lemma encode_short (value : list byte) :
  (N.of_nat (List.length value) <= chunk)%N ->
  encodePythonStringToC value = _encodePythonStringToC value.
Proof.
  intro Hlen. unfold encodePythonStringToC, slice_from, slice_to.
  rewrite skipn_all2, firstn_all2 by lia. now simp encode_more.
Qed.

Lemma encode_short_witness :
  encodePythonStringToC short_payload = _encodePythonStringToC short_payload.
Proof.
  apply (encode_short short_payload). unfold short_payload, chunk.
  cbn [List.length]. lia.
Defined.

Lemma encode_long (value : list byte) :
  (chunk < N.of_nat (List.length value))%N ->
  encodePythonStringToC value
  = _encodePythonStringToC (slice_to chunk value)
    ++ str1 space ++ encodePythonStringToC (slice_from chunk value).
Proof.
  intro Hlen. unfold encodePythonStringToC at 1.
  destruct (slice_from chunk value) as [|b v] eqn:E.
  - apply (f_equal (@List.length byte)) in E. unfold slice_from in E.
    rewrite length_skipn in E. cbn [List.length] in E. unfold chunk in *. lia.
  - simp encode_more.
    rewrite (encode_more_prefix (List.length (b :: v))) by
      (unfold slice_from; rewrite length_skipn; lia).
    unfold encodePythonStringToC.
    rewrite (encode_more_prefix (List.length (b :: v))
               (slice_from chunk (b :: v))
               (_encodePythonStringToC (slice_to chunk (b :: v)))) by
      (unfold slice_from; rewrite length_skipn; lia).
    now rewrite !append_assoc.
Qed.

(** C3: for every byte payload, reading the text made by
    [encodePythonStringToC] as adjacent C string literals with octal
    escapes gives back exactly the payload; a payload of more than
    16000 bytes is written as the literal of its first 16000 bytes, one
    space, and the encoding of the remaining bytes, the first literal
    reading back as those first bytes. *)
Theorem encodePythonStringToC_roundtrip (value : list byte) :
  decode (encodePythonStringToC value) = Some value
  /\ ((chunk < N.of_nat (List.length value))%N ->
      encodePythonStringToC value
      = _encodePythonStringToC (slice_to chunk value)
        ++ str1 space ++ encodePythonStringToC (slice_from chunk value)
      /\ decode (_encodePythonStringToC (slice_to chunk value))
         = Some (slice_to chunk value)
      /\ slice_from chunk value <> []).
Proof.
  split; [apply decode_encode|].
  intro Hlen. split; [now apply encode_long|].
  split; [apply decode_literal|].
  intro E. apply (f_equal (@List.length byte)) in E. unfold slice_from in E.
  rewrite length_skipn in E. cbn [List.length] in E. unfold chunk in *. lia.
Qed.

Lemma encodePythonStringToC_roundtrip_witness :
  decode (encodePythonStringToC long_payload) = Some long_payload
  /\ encodePythonStringToC long_payload
     = _encodePythonStringToC (slice_to chunk long_payload)
       ++ str1 space ++ encodePythonStringToC (slice_from chunk long_payload).
Proof.
  destruct (encodePythonStringToC_roundtrip long_payload) as [Hdecode Hsplit].
  split; [exact Hdecode|].
  apply Hsplit. unfold long_payload, chunk. rewrite repeat_length. lia.
Defined.

(** ** [encodePythonIdentifierToC] *)

Lemma re_sub_char_identifier (c : N) :
  is_identifier_char c = true -> re_sub_char c = [c].
Proof. unfold re_sub_char. now intros ->. Qed.

Lemma re_sub_char_dot : re_sub_char dot = [dollar].
Proof. reflexivity. Qed.

Lemma re_sub_char_other (c : N) :
  is_identifier_char c = false -> c <> dot ->
  re_sub_char c = ([dollar; dollar] ++ format_d c ++ [dollar])%list.
Proof.
  unfold re_sub_char, r. intros -> Hdot.
  destruct (N.eqb_spec c dot); [contradiction | reflexivity].
Qed.

(** *** Where the transform is injective *)

Lemma uint_codes_digits (u : Decimal.uint) : Forall is_digit (uint_codes u).
Proof. induction u; cbn; constructor; try assumption; unfold is_digit; lia. Qed.

Lemma uint_codes_inj (u : Decimal.uint) :
  forall v, uint_codes u = uint_codes v -> u = v.
Proof.
  induction u; intros [] H; cbn in H; try discriminate; try reflexivity;
    injection H as H; f_equal; now apply IHu.
Qed.

Lemma format_d_inj (m n : N) : format_d m = format_d n -> m = n.
Proof.
  unfold format_d. intro H. apply DecimalN.Unsigned.to_uint_inj.
  now apply uint_codes_inj.
Qed.

Lemma format_d_digits (n : N) : Forall is_digit (format_d n).
Proof. apply uint_codes_digits. Qed.

Lemma format_d_head (n : N) : exists d ds, format_d n = (d :: ds)%list /\ is_digit d.
Proof.
  pose proof (format_d_digits n) as H.
  destruct (format_d n) as [|d ds] eqn:E.
  - exfalso. unfold format_d in E. destruct n as [|p]; [discriminate|].
    cbn in E. pose proof (DecimalPos.Unsigned.to_uint_nonnil p) as Hp.
    destruct (Pos.to_uint p); cbn in E; try discriminate. now apply Hp.
  - exists d, ds. split; [reflexivity|]. now apply Forall_inv in H.
Qed.

(** Two runs of digits closed by a dollar sign agree when the texts they
    start agree. *)
Lemma digits_then_dollar (d1 : text) :
  forall d2 r1 r2,
    Forall is_digit d1 -> Forall is_digit d2 ->
    (d1 ++ dollar :: r1 = d2 ++ dollar :: r2)%list ->
    d1 = d2 /\ r1 = r2.
Proof.
  induction d1 as [|x d1 IH]; intros [|y d2] r1 r2 H1 H2 H; cbn in H.
  - injection H as <-. now split.
  - injection H as <- _. apply Forall_inv in H2. unfold is_digit, dollar in *. lia.
  - injection H as -> _. apply Forall_inv in H1. unfold is_digit, dollar in *. lia.
  - injection H as <- H.
    destruct (IH _ _ _ (Forall_inv_tail H1) (Forall_inv_tail H2) H) as [-> ->].
    now split.
Qed.

Lemma re_sub_char_written (c : N) : written c (re_sub_char c).
Proof.
  unfold re_sub_char, r.
  destruct (is_identifier_char c) eqn:E.
  - apply written_same; [assumption|]. intros ->. discriminate E.
  - destruct (N.eqb_spec c dot) as [->|Hd].
    + now apply written_dot.
    + now apply written_escape.
Qed.

Lemma encode_cons (c : N) (t : text) :
  encodePythonIdentifierToC (c :: t)
  = (re_sub_char c ++ encodePythonIdentifierToC t)%list.
Proof. reflexivity. Qed.

Lemma no_double_dot_tail (c : N) (t : text) :
  no_double_dot (c :: t) = true -> no_double_dot t = true.
Proof.
  cbn. destruct t as [|c2 t]; [reflexivity|].
  intro H. apply andb_true_iff in H. apply H.
Qed.

(** After a dot, a text without two dots in a row is not written with a
    dollar sign followed by a digit. *)
Lemma after_dot (t : text) (d : N) (rest : text) :
  no_double_dot (dot :: t) = true ->
  is_digit d ->
  encodePythonIdentifierToC t <> (dollar :: d :: rest)%list.
Proof.
  intros Hdots Hd H. destruct t as [|c t]; [discriminate|].
  rewrite encode_cons in H.
  destruct (re_sub_char_written c) as [_ Hc | -> | _ _]; cbn in H.
  - injection H as -> _. now apply Hc.
  - cbn in Hdots. discriminate.
  - injection H as <- _. unfold is_digit, dollar in Hd. lia.
Qed.

(** X1: on texts in which no dot is followed by a dot,
    [encodePythonIdentifierToC] is injective: two such texts with the
    same encoding are the same text. *)
Theorem encodePythonIdentifierToC_injective (a : text) :
  forall b,
    no_double_dot a = true -> no_double_dot b = true ->
    encodePythonIdentifierToC a = encodePythonIdentifierToC b -> a = b.
Proof.
  induction a as [|c1 a IH]; intros [|c2 b] Ha Hb H.
  - reflexivity.
  - rewrite encode_cons in H. destruct (re_sub_char_written c2); discriminate.
  - rewrite encode_cons in H. destruct (re_sub_char_written c1); discriminate.
  - pose proof (no_double_dot_tail _ _ Ha) as Ha'.
    pose proof (no_double_dot_tail _ _ Hb) as Hb'.
    rewrite !encode_cons in H.
    destruct (re_sub_char_written c1) as [_ H1 | -> | _ _];
      destruct (re_sub_char_written c2) as [_ H2 | -> | _ _]; cbn in H.
    + injection H as -> H. f_equal. now apply IH.
    + injection H as -> _. now contradiction H1.
    + injection H as -> _. now contradiction H1.
    + injection H as <- _. now contradiction H2.
    + injection H as H. f_equal. now apply IH.
    + injection H as H. exfalso.
      destruct (format_d_head c2) as (d & ds & E & Hd). rewrite E in H.
      cbn in H. now apply (after_dot a d _ Ha Hd H).
    + injection H as <- _. now contradiction H2.
    + injection H as H. exfalso.
      destruct (format_d_head c1) as (d & ds & E & Hd). rewrite E in H.
      cbn in H. symmetry in H. now apply (after_dot b d _ Hb Hd H).
    + injection H as H. rewrite <- !app_assoc in H. cbn in H.
      destruct (digits_then_dollar _ _ _ _ (format_d_digits c1)
                                   (format_d_digits c2) H) as [Hd Hrest].
      apply format_d_inj in Hd. subst c2. f_equal. now apply IH.
Qed.

Lemma encodePythonIdentifierToC_injective_witness :
  text_of_string "os.path" = text_of_string "os.path".
Proof.
  exact (encodePythonIdentifierToC_injective
           (text_of_string "os.path") (text_of_string "os.path")
           eq_refl eq_refl eq_refl).
Defined.

(** C9: the texts made of one dollar sign and of [..36.] are different
    and [encodePythonIdentifierToC] gives the same text for both, so the
    transform is not injective and the input cannot be recovered. *)
Theorem encodePythonIdentifierToC_collision :
  text_of_string "$" <> text_of_string "..36."
  /\ encodePythonIdentifierToC (text_of_string "$")
     = encodePythonIdentifierToC (text_of_string "..36.")
  /\ encodePythonIdentifierToC (text_of_string "$") = text_of_string "$$36$".
Proof. split; [discriminate | split; reflexivity]. Qed.

End CStringsFacts.

(* ===================================================================== *)
(** * Properties of the constant nodes                                    *)
(* ===================================================================== *)

Module ConstantRefFacts.
Import ConstantRefNodes Inputs.
Local Open Scope list_scope.
Local Open Scope Z_scope.

(** ** Running a [bind] *)

Lemma bind_ret {A B} (a : A) (k : A -> M B) (log : list LogRecord) :
  bind (ret a) k log = k a log.
Proof. reflexivity. Qed.

Lemma bind_returns {A B} (m : M A) (k : A -> M B) (a : A)
      (log log' : list LogRecord) :
  m log = (Return a, log') -> bind m k log = k a log'.
Proof. unfold bind. now intros ->. Qed.

Lemma bind_raises {A B} (m : M A) (k : A -> M B) (e : exn)
      (log log' : list LogRecord) :
  m log = (Raise e, log') -> bind m k log = (Raise e, log').
Proof. unfold bind. now intros ->. Qed.

(** ** The constructor *)

Lemma len_raises (c : pyvalue) (e : exn) : len c = Raise e -> e = TypeError.
Proof. destruct c; cbn; congruence. Qed.

Lemma init_run (env : Environment) (k : kind) (c : pyvalue) (sr : source_ref)
      (up : bool) (log : list LogRecord) :
  isConstant env c = true ->
  ExpressionConstantRefBase.__init__ env k c sr up log
  = (Return (mkConstantRef k c up sr), log ++ warnings env c sr up).
Proof.
  intro Hc.
  unfold ExpressionConstantRefBase.__init__, warnings, max_size, bind, assert.
  rewrite Hc. cbn [ret].
  destruct (negb up && isDebug env) eqn:Hflags; cbn [andb].
  - destruct (len c) as [n|e] eqn:Hlen.
    + destruct (n >? _); cbn; [reflexivity | now rewrite app_nil_r].
    + rewrite (len_raises _ _ Hlen). cbn. now rewrite app_nil_r.
  - cbn. destruct (len c); now rewrite app_nil_r.
Qed.

Lemma init_rejects (env : Environment) (k : kind) (c : pyvalue) (sr : source_ref)
      (up : bool) (log : list LogRecord) :
  isConstant env c = false ->
  ExpressionConstantRefBase.__init__ env k c sr up log = (Raise AssertionError, log).
Proof.
  intro Hc. unfold ExpressionConstantRefBase.__init__, bind, assert.
  now rewrite Hc.
Qed.

Lemma init_returns (env : Environment) (k : kind) (c : pyvalue) (sr : source_ref)
      (up : bool) (log log' : list LogRecord) (n : ConstantRefNode) :
  ExpressionConstantRefBase.__init__ env k c sr up log = (Return n, log') ->
  n = mkConstantRef k c up sr /\ isConstant env c = true.
Proof.
  destruct (isConstant env c) eqn:Hc.
  - rewrite init_run by assumption. intros [= <- _]. now split.
  - rewrite init_rejects by assumption. discriminate.
Qed.

(** The factory never changes what it is given: the node it returns
    holds the value, the flag and the source reference handed in. *)
Lemma make_returns (env : Environment) (c : pyvalue) (sr : source_ref)
      (up : bool) (log log' : list LogRecord) (n : ConstantRefNode) :
  makeConstantRefNode env c sr up log = (Return n, log') ->
  constant n = c /\ user_provided n = up /\ source_reference n = sr
  /\ isConstant env c = true /\ log' = log ++ warnings env c sr up.
Proof.
  unfold makeConstantRefNode, str, long, unicode, bytes, the_empty_dict.
  intro H.
  assert (Hinit : exists k, ExpressionConstantRefBase.__init__ env k c sr up log
                            = (Return n, log')).
  { destruct c as [ |[|]| | | | | | | | | | | | |[|? ?]| | ];
      destruct (python3 env); cbn in H; try discriminate H; eauto. }
  destruct Hinit as [k Hk].
  destruct (init_returns _ _ _ _ _ _ _ _ Hk) as [-> Hc].
  rewrite init_run in Hk by assumption. injection Hk as <-. now cbn.
Qed.

Lemma make_tuple (env : Environment) (l : list pyvalue) (sr : source_ref)
      (up : bool) (log : list LogRecord) :
  makeConstantRefNode env (PyTuple l) sr up log
  = ExpressionConstantRefBase.__init__ env EXPRESSION_CONSTANT_TUPLE_REF
      (PyTuple l) sr up log.
Proof.
  unfold makeConstantRefNode, str, long, unicode, bytes.
  destruct (python3 env); reflexivity.
Qed.

(** ** C8 *)

(** C8: for every constant node of every kind [mayHaveSideEffects] is
    false, [extractSideEffects] is the empty sequence, and
    [computeExpression] returns the node itself with no change tag and
    no description. *)
Theorem constant_is_fixed_point (self : ConstantRefNode)
        (constraint_collection : Collection) :
  mayHaveSideEffects self = false
  /\ extractSideEffects self = []
  /\ computeExpression self constraint_collection = (ConstantRef self, None, None).
Proof. repeat split. Qed.

(** ** C10 *)

(** C10: for every constant node and every call made on it, whatever
    its arguments and keywords, [computeExpressionCall] returns the
    raise replacement for a TypeError with the message
    ['<type>' object is not callable], wrapped with the side effects
    [extractPreCallSideEffects] takes from the call, with the tag
    [new_raise], and the collection has received one more call,
    [onExceptionRaiseExit(TypeError)], after those it had. *)
Theorem constant_call_raises (helpers : Helpers) (self : ConstantRefNode)
        (call_node : node) (call_args call_kw : option node)
        (constraint_collection : Collection) :
  computeExpressionCall helpers self call_node call_args call_kw
                        constraint_collection
  = ((wrapExpressionWithSideEffects helpers
        (makeRaiseExceptionReplacementExpression helpers (ConstantRef self)
           "TypeError" (not_callable self))
        call_node
        (extractPreCallSideEffects helpers call_node),
      Some "new_raise",
      Some "Predicted call of constant value to exception raise."),
     constraint_collection ++ [onExceptionRaiseExit TypeError]).
Proof. reflexivity. Qed.

(** The message for each type of constant. *)
Example not_callable_none :
  not_callable (mkConstantRef EXPRESSION_CONSTANT_NONE_REF PyNone false here)
  = "'NoneType' object is not callable".
Proof. reflexivity. Qed.

Example not_callable_dict : not_callable dict_12 = "'dict' object is not callable".
Proof. reflexivity. Qed.

(** ** C6 *)

(** C6, as the code has it: the constructor of a constant node adds a
    record to the log exactly when the node is not user provided, debug
    mode is on, the value has a length and this length is above 1000 for
    the types [str] and [unicode], above 256 for any other; the record
    holds the type, the length and the source reference.  It adds none
    for a user provided node, and none when debug mode is off. *)
Theorem too_large_constant_warning (env : Environment) (k : kind)
        (c : pyvalue) (sr : source_ref) (up : bool) (log : list LogRecord) :
  isConstant env c = true ->
  ExpressionConstantRefBase.__init__ env k c sr up log
  = (Return (mkConstantRef k c up sr),
     match len c with
     | Return size =>
         if negb up && isDebug env
            && (size >? (if type_in (type_of c) [str env; unicode env]
                         then 1000 else 256))
         then log ++ [mkLogRecord too_large_format (type_of c) size
                                  (getAsString sr)]
         else log
     | Raise _ => log
     end).
Proof.
  intro Hc. rewrite init_run by assumption. unfold warnings, max_size.
  destruct (len c); [|now rewrite app_nil_r].
  destruct (negb up && isDebug env && _); [reflexivity | now rewrite app_nil_r].
Qed.

Lemma too_large_constant_warning_witness :
  ExpressionConstantRefBase.__init__ (python27 true) EXPRESSION_CONSTANT_LIST_REF
    list_of_257 here false []
  = (Return (mkConstantRef EXPRESSION_CONSTANT_LIST_REF list_of_257 false here),
     [mkLogRecord too_large_format TList 257 "module.py:1"]).
Proof.
  exact (too_large_constant_warning (python27 true) EXPRESSION_CONSTANT_LIST_REF
           list_of_257 here false [] eq_refl).
Defined.

(** C6, counterexample to the sentence of the specification: with
    debug mode off a list of 257 elements made by the optimizer is constructed
    without any record in the log. *)
Lemma too_large_constant_silent :
  len list_of_257 = Return 257
  /\ ExpressionConstantRefBase.__init__ (python27 false)
       EXPRESSION_CONSTANT_LIST_REF list_of_257 here false []
     = (Return (mkConstantRef EXPRESSION_CONSTANT_LIST_REF list_of_257 false here),
        []).
Proof. split; reflexivity. Qed.

(** ** C4 *)

Lemma members_iterate (c : pyvalue) :
  type_in (type_of c) [TList; TSet; TFrozenset; TDict] = true ->
  exists l, members c = Some l /\ iterate c = Return l.
Proof. destruct c; cbn; try discriminate; eauto. Qed.

(** C4: for every constant node, [computeExpressionIter1] does the
    following.  When the constant is a list, set, frozenset or
    dictionary, the slot that held the node now holds a tuple constant
    with the same members in the same order (with the user provided
    flag and source reference of the node), and the iteration node is
    returned with the tag [new_constant]; the tuple has to be accepted
    as a constant by the constructor.  Otherwise the iteration node is
    returned with no tag and the slot is untouched, and the collection
    is told of a possible TypeError exactly when the constant is not
    iterable. *)
Theorem computeExpressionIter1_cases (env : Environment) (self : ConstantRefNode)
        (iter_node : node) (collection : Collection) (parent_slot : node)
        (log : list LogRecord) :
  (type_in (type_of (constant self)) [TList; TSet; TFrozenset; TDict] = true ->
   exists l,
     members (constant self) = Some l
     /\ (isConstant env (PyTuple l) = true ->
         fst (computeExpressionIter1 env self iter_node collection parent_slot log)
         = Return ((iter_node, Some "new_constant", Some (changed_to_tuple self)),
                   collection,
                   ConstantRef (mkConstantRef EXPRESSION_CONSTANT_TUPLE_REF
                                  (PyTuple l) (user_provided self)
                                  (source_reference self)))))
  /\ (type_in (type_of (constant self)) [TList; TSet; TFrozenset; TDict] = false ->
      isIterableConstant env (constant self) = false ->
      computeExpressionIter1 env self iter_node collection parent_slot log
      = (Return ((iter_node, None, None),
                 collection ++ [onExceptionRaiseExit TypeError], parent_slot),
         log))
  /\ (type_in (type_of (constant self)) [TList; TSet; TFrozenset; TDict] = false ->
      isIterableConstant env (constant self) = true ->
      computeExpressionIter1 env self iter_node collection parent_slot log
      = (Return ((iter_node, None, None), collection, parent_slot), log)).
Proof.
  unfold computeExpressionIter1. repeat split.
  - intro Hty. destruct (members_iterate _ Hty) as (l & Hl & Hit).
    exists l. split; [assumption|]. intro Hc.
    rewrite Hty, Hit. unfold bind at 1. cbn [lift ret].
    unfold bind. rewrite make_tuple, init_run by assumption. reflexivity.
  - intros -> ->. reflexivity.
  - intros -> ->. reflexivity.
Qed.

Lemma computeExpressionIter1_cases_witness :
  fst (computeExpressionIter1 (python27 false) set_123 iter_node []
                              (ConstantRef set_123) [])
  = Return ((iter_node, Some "new_constant",
             Some "Iteration over constant set changed to tuple."),
            [],
            ConstantRef (mkConstantRef EXPRESSION_CONSTANT_TUPLE_REF
                           (PyTuple [PyInt 1; PyInt 2; PyInt 3]) true here))
  /\ computeExpressionIter1 (python27 false) int_7 iter_node []
                            (ConstantRef int_7) []
     = (Return ((iter_node, None, None), [onExceptionRaiseExit TypeError],
                ConstantRef int_7), [])
  /\ computeExpressionIter1 (python27 false) tuple_12 iter_node []
                            (ConstantRef tuple_12) []
     = (Return ((iter_node, None, None), [], ConstantRef tuple_12), []).
Proof.
  split; [|split].
  - destruct (computeExpressionIter1_cases (python27 false) set_123 iter_node []
                (ConstantRef set_123) []) as [Hset _].
    destruct (Hset eq_refl) as (l & Hl & Hrun).
    injection Hl as <-. exact (Hrun eq_refl).
  - exact (proj1 (proj2 (computeExpressionIter1_cases (python27 false) int_7
                           iter_node [] (ConstantRef int_7) []))
                 eq_refl eq_refl).
  - exact (proj2 (proj2 (computeExpressionIter1_cases (python27 false) tuple_12
                           iter_node [] (ConstantRef tuple_12) []))
                 eq_refl eq_refl).
Defined.

(** ** C1 *)

(** On a mapping with at least one item [getMappingPairs] never
    returns: the first round of its loop ends in an exception. *)
Lemma getMappingPairs_never_returns (env : Environment) (self : ConstantRefNode)
      (key value : pyvalue) (rest : list (pyvalue * pyvalue))
      (log : list LogRecord) :
  constant self = PyDict ((key, value) :: rest) ->
  exists e, fst (getMappingPairs env self log) = Raise e.
Proof.
  intro Hc. unfold getMappingPairs, isMapping. rewrite Hc.
  cbn [type_of pytype_eqb assert iterItems lift for_each].
  rewrite !bind_ret. cbn [for_each].
  destruct (makeConstantRefNode env key (getSourceReference self) false log)
    as [[k|e] log1] eqn:Hk.
  2: { exists e. rewrite (bind_raises _ _ e log log1); [reflexivity|].
       now rewrite (bind_raises _ _ e log log1). }
  destruct (makeConstantRefNode env value (getSourceReference self) false log1)
    as [[v|e] log2] eqn:Hv.
  2: { exists e. rewrite (bind_raises _ _ e log log2); [reflexivity|].
       rewrite (bind_returns _ _ k log log1) by assumption.
       now rewrite (bind_raises _ _ e log1 log2). }
  exists TypeError. rewrite (bind_raises _ _ TypeError log log2); [reflexivity|].
  rewrite (bind_returns _ _ k log log1) by assumption.
  now rewrite (bind_returns _ _ v log1 log2).
Qed.

(** When the factory accepts the first key and value, the exception is
    the TypeError of [append] called with two arguments. *)
Lemma getMappingPairs_type_error (env : Environment) (self : ConstantRefNode)
      (key value : pyvalue) (rest : list (pyvalue * pyvalue))
      (k v : ConstantRefNode) (log log1 log2 : list LogRecord) :
  constant self = PyDict ((key, value) :: rest) ->
  makeConstantRefNode env key (source_reference self) false log = (Return k, log1) ->
  makeConstantRefNode env value (source_reference self) false log1 = (Return v, log2) ->
  getMappingPairs env self log = (Raise TypeError, log2).
Proof.
  intros Hc Hk Hv. unfold getMappingPairs, isMapping, getSourceReference.
  rewrite Hc.
  cbn [type_of pytype_eqb assert iterItems lift for_each].
  rewrite !bind_ret. cbn [for_each].
  apply bind_raises.
  rewrite (bind_returns _ _ k log log1) by assumption.
  now rewrite (bind_returns _ _ v log1 log2).
Qed.

Lemma getMappingStringKeyPairs_loop (env : Environment) (sr : source_ref)
      (items : list (pyvalue * pyvalue)) :
  Forall (fun kv => accepted env sr (snd kv)) items ->
  forall pairs log, exists made log',
    for_each items
      (fun pairs '(key, value) =>
         v <- makeConstantRefNode env value sr false ;;
         lift (list_append pairs [ItemTuple [ItemKey key; ItemNode v]]))
      pairs log
    = (Return (pairs ++ made), log')
    /\ map key_and_value made = map Some items.
Proof.
  induction 1 as [|[key value] items Hok _ IH]; intros pairs log.
  - exists [], log. split; [cbn; unfold ret; now rewrite app_nil_r | reflexivity].
  - cbn [for_each snd] in *.
    destruct (Hok log) as (n & log1 & Hn).
    destruct (make_returns _ _ _ _ _ _ _ Hn) as (Hvalue & _).
    destruct (IH (pairs ++ [ItemTuple [ItemKey key; ItemNode n]]) log1)
      as (made & log' & Hrun & Hmade).
    exists (ItemTuple [ItemKey key; ItemNode n] :: made), log'. split.
    + erewrite bind_returns.
      2: { erewrite bind_returns by exact Hn. reflexivity. }
      rewrite Hrun. now rewrite <- app_assoc.
    + cbn [map key_and_value]. now rewrite Hmade, Hvalue.
Qed.

(** X5: on a mapping whose values the factory accepts,
    [getMappingStringKeyPairs] returns one pair per item, in the order of
    the mapping, made of the raw key and of a node holding the value. *)
Lemma getMappingStringKeyPairs_returns (env : Environment) (self : ConstantRefNode)
      (items : list (pyvalue * pyvalue)) (log : list LogRecord) :
  constant self = PyDict items ->
  Forall (fun kv => accepted env (source_reference self) (snd kv)) items ->
  exists pairs log',
    getMappingStringKeyPairs env self log = (Return pairs, log')
    /\ map key_and_value pairs = map Some items.
Proof.
  intros Hc Hok. unfold getMappingStringKeyPairs, isMapping, getSourceReference.
  rewrite Hc. cbn [type_of pytype_eqb assert iterItems lift].
  rewrite !bind_ret.
  destruct (getMappingStringKeyPairs_loop env _ items Hok [] log)
    as (made & log' & Hrun & Hmade).
  exists made, log'. now rewrite Hrun.
Qed.

Lemma getMappingStringKeyPairs_returns_witness :
  exists pairs log',
    getMappingStringKeyPairs (python27 false) dict_12 [] = (Return pairs, log')
    /\ map key_and_value pairs = [Some (PyInt 1, PyInt 2)].
Proof.
  apply (getMappingStringKeyPairs_returns (python27 false) dict_12
           [(PyInt 1, PyInt 2)] []).
  - reflexivity.
  - constructor; [|constructor].
    intro log. eexists _, _. reflexivity.
Defined.

(** C1: on the mapping [{1: 2}] [getMappingPairs] raises TypeError and
    returns no pairs, while [getMappingStringKeyPairs] returns the one
    pair of the raw key and the node of the value. *)
Theorem getMappingPairs_raises :
  isMapping dict_12 = true
  /\ getMappingPairs (python27 false) dict_12 [] = (Raise TypeError, [])
  /\ getMappingStringKeyPairs (python27 false) dict_12 []
     = (Return [ItemTuple [ItemKey (PyInt 1);
                           ItemNode (mkConstantRef EXPRESSION_CONSTANT_INT_REF
                                       (PyInt 2) false here)]],
        []).
Proof. split; [|split]; reflexivity. Qed.

(** ** C5 *)

(** X3: for every constant that has a length and every index at or
    beyond this length, [getIterationValue] ends in the assertion fault
    and leaves the log as it was. *)
Lemma getIterationValue_out_of_range (env : Environment) (self : ConstantRefNode)
      (count size : Z) (log : list LogRecord) :
  len (constant self) = Return size ->
  size <= count ->
  getIterationValue env self count log = (Raise AssertionError, log).
Proof.
  intros Hlen Hcount. unfold getIterationValue. rewrite Hlen.
  cbn [lift]. rewrite bind_ret. apply bind_raises.
  destruct (Z.ltb_spec count size); [lia | reflexivity].
Qed.

Lemma getIterationValue_out_of_range_witness :
  getIterationValue (python27 false) tuple_12 2 [] = (Raise AssertionError, []).
Proof.
  apply (getIterationValue_out_of_range (python27 false) tuple_12 2 2 []).
  - reflexivity.
  - lia.
Defined.

(** X4: on a tuple or a list, for an index from zero up to the length,
    [getIterationValue] is the factory applied to the element at that
    position, at the source reference of the node and not user
    provided. *)
Lemma getIterationValue_sequence (env : Environment) (self : ConstantRefNode)
      (l : list pyvalue) (count : Z) (element : pyvalue) (log : list LogRecord) :
  constant self = PyTuple l \/ constant self = PyList l ->
  0 <= count ->
  nth_error l (Z.to_nat count) = Some element ->
  getIterationValue env self count log
  = makeConstantRefNode env element (source_reference self) false log.
Proof.
  intros Hc Hcount Hnth. unfold getIterationValue.
  assert (Hlt : count < size l).
  { unfold size.
    assert (Z.to_nat count < List.length l)%nat
      by (apply nth_error_Some; congruence).
    lia. }
  assert (Hlen : len (constant self) = Return (size l))
    by (destruct Hc as [-> | ->]; reflexivity).
  assert (Hsub : subscript (constant self) count = Return element).
  { assert (Hneg : (count <? 0) = false) by (apply Z.ltb_ge; lia).
    destruct Hc as [-> | ->]; cbn [subscript]; unfold sequence_item;
      rewrite Hneg; cbv zeta iota; now rewrite Hneg, Hnth. }
  rewrite Hlen, Hsub. cbn [lift]. rewrite bind_ret.
  destruct (Z.ltb_spec count (size l)); [|lia]. cbn [assert].
  now rewrite !bind_ret.
Qed.

Lemma getIterationValue_sequence_witness :
  getIterationValue (python27 false) tuple_12 1 []
  = makeConstantRefNode (python27 false) (PyInt 2) here false [].
Proof.
  apply (getIterationValue_sequence (python27 false) tuple_12
           [PyInt 1; PyInt 2] 1 (PyInt 2) []).
  - left. reflexivity.
  - lia.
  - reflexivity.
Defined.

(** C5: on the set constant [{1, 2, 3}], which is iterable and has
    three iteration values, [getIterationValue(0)] raises TypeError and
    returns no node, while [getIterationValues] returns the three
    element nodes; on the dictionary [{1: 2}], [getIterationValue(0)]
    raises KeyError, and [getIterationValue(1)], which is out of range,
    raises the assertion fault. *)
Theorem getIterationValue_unordered :
  isIterableConstant (python27 false) (constant set_123) = true
  /\ getIterationValue (python27 false) set_123 0 [] = (Raise TypeError, [])
  /\ getIterationValues (python27 false) set_123 []
     = (Return [mkConstantRef EXPRESSION_CONSTANT_INT_REF (PyInt 1) true here;
                mkConstantRef EXPRESSION_CONSTANT_INT_REF (PyInt 2) true here;
                mkConstantRef EXPRESSION_CONSTANT_INT_REF (PyInt 3) true here],
        [])
  /\ getIterationValue (python27 false) dict_12 0 [] = (Raise KeyError, [])
  /\ getIterationValue (python27 false) dict_12 1 [] = (Raise AssertionError, []).
Proof. repeat (split; [reflexivity|]). reflexivity. Qed.

End ConstantRefFacts.

(* ===================================================================== *)
(** * Properties of the built-in type nodes                               *)
(* ===================================================================== *)

Module BuiltinTypeFacts.
Import BuiltinTypeNodes Inputs ConstantRefFacts.
Local Open Scope list_scope.

(** ** C7 *)

Lemma make_empty_bytes (env : Environment) (sr : source_ref)
      (log : list LogRecord) :
  isConstant env (bytes_literal env []) = true ->
  makeConstantRefNode env (bytes_literal env []) sr false log
  = (Return (empty_bytes env sr), log).
Proof.
  intro Hc. unfold empty_bytes, empty_bytes_kind.
  unfold makeConstantRefNode, bytes_literal, str, long, unicode, bytes in *.
  destruct (python3 env); cbn [type_of pytype_eqb map];
    rewrite init_run by assumption; unfold warnings, max_size;
    cbn [len size List.length Z.of_nat];
    match goal with |- context [if type_in ?t ?ts then _ else _] =>
      destruct (type_in t ts) end;
    cbn [Z.gtb Z.compare]; rewrite andb_false_r; now rewrite app_nil_r.
Qed.

(** C7: for every bytearray node, whatever its operand,
    [computeExpression] returns the node itself with no change tag and
    no description; and the constructor called without an operand puts
    into the value slot the constant node of the empty bytes literal
    (which the constant check has to accept), and the operand itself
    when there is one. *)
Theorem bytearray_never_folds (env : Environment) :
  isConstant env (bytes_literal env []) = true ->
  (forall (self : node) (constraint_collection : Collection),
      ExpressionBuiltinBytearray.computeExpression self constraint_collection
      = (self, None, None))
  /\ (forall (value : option node) (sr : source_ref)
             (constraint_collection : Collection),
         fst (fst (ExpressionBuiltinBytearray.computeExpression
                     (BuiltinBytearray value sr) constraint_collection))
         = BuiltinBytearray value sr)
  /\ (forall (sr : source_ref) (log : list LogRecord),
         ExpressionBuiltinBytearray.__init__ env None sr log
         = (Return (BuiltinBytearray (Some (ConstantRef (empty_bytes env sr))) sr),
            log))
  /\ (forall (value : node) (sr : source_ref) (log : list LogRecord),
         ExpressionBuiltinBytearray.__init__ env (Some value) sr log
         = (Return (BuiltinBytearray (Some value) sr), log)).
Proof.
  intro Hc. split; [reflexivity|]. split; [reflexivity|]. split; [|reflexivity].
  intros sr log. unfold ExpressionBuiltinBytearray.__init__.
  erewrite bind_returns.
  2: { erewrite bind_returns by (now apply make_empty_bytes). reflexivity. }
  reflexivity.
Qed.

Lemma bytearray_never_folds_witness :
  ExpressionBuiltinBytearray.__init__ (python32 false) None here []
  = (Return (BuiltinBytearray
               (Some (ConstantRef (mkConstantRef EXPRESSION_CONSTANT_BYTES_REF
                                     (PyBytes []) false here)))
               here),
     [])
  /\ ExpressionBuiltinBytearray.__init__ (python27 false) None here []
     = (Return (BuiltinBytearray
                  (Some (ConstantRef (mkConstantRef EXPRESSION_CONSTANT_STR_REF
                                        (PyStr []) false here)))
                  here),
        []).
Proof.
  split.
  - exact (proj1 (proj2 (proj2 (bytearray_never_folds (python32 false) eq_refl)))
                 here []).
  - exact (proj1 (proj2 (proj2 (bytearray_never_folds (python27 false) eq_refl)))
                 here []).
Defined.

(** ** C2 *)

Import ExpressionBuiltinIntLongBase.

(** C2, counterexample to the sentence of the specification: on a host
    that refuses [int(base = 2)] the node with only a base operand is not
    left unchanged, the refused call is evaluated and the node becomes a
    raise of TypeError, of which the collection is told. *)
Lemma base_only_is_evaluated_when_refused :
  base_only_value (python27 false) = false
  /\ ExpressionBuiltinIntLongBase.__init__ (python27 false)
       (SpecModel.helpers (python27 false) native_zero)
       builtin_int None (Some two) here []
     = (Return (BuiltinIntLong builtin_int None (Some two) here), [])
  /\ ExpressionBuiltinIntLongBase.computeExpression (python27 false)
       (SpecModel.helpers (python27 false) native_zero)
       builtin_int None (Some two) here [] []
     = (Return ((SideEffects [] (RaiseException "TypeError" EmptyString here),
                 Some "new_raise",
                 Some "int built-in call with only base argument"),
                [onExceptionRaiseExit TypeError]),
        []).
Proof. split; [|split]; reflexivity. Qed.

(** C2, as the code has it.  For an int or long node built without a
    value operand:
    - on a host that refuses the base-only call, the constructor leaves
      the value slot empty; with a base operand [computeExpression]
      hands the call [builtin(base = 2)] to the compile time evaluation
      of the collection, without one it runs the shared fold on no
      operand;
    - on a host that accepts the base-only call, the constructor puts
      the replacement node of the constant ['0'] into the value slot,
      and [computeExpression] runs the shared fold on this node,
      followed by the base operand when there is one.
    With the fold and the evaluation as the specification describes
    them, a node built without any operand becomes the constant that
    the native constructor returns (zero), with the tag
    [new_constant]. *)
Theorem int_long_without_value (env : Environment) (helpers : Helpers)
        (b : builtin) (sr : source_ref) (collection : Collection) :
  (base_only_value env = false ->
   forall base : node,
     (forall log,
         ExpressionBuiltinIntLongBase.__init__ env helpers b None (Some base) sr log
         = (Return (BuiltinIntLong b None (Some base) sr), log))
     /\ ExpressionBuiltinIntLongBase.computeExpression env helpers b None
          (Some base) sr collection
        = getCompileTimeComputationResult helpers collection
            (BuiltinIntLong b None (Some base) sr) (call_base_2 b) (only_base b))
  /\ (base_only_value env = true ->
      forall (base zero : node) (log log' : list LogRecord),
        makeConstantReplacementNode helpers str_zero sr log = (Return zero, log') ->
        ExpressionBuiltinIntLongBase.__init__ env helpers b None (Some base) sr log
        = (Return (BuiltinIntLong b (Some zero) (Some base) sr), log')
        /\ ExpressionBuiltinIntLongBase.computeExpression env helpers b
             (Some zero) (Some base) sr collection
           = computeBuiltinSpec helpers
               (BuiltinIntLong b (Some zero) (Some base) sr) collection
               [zero; base])
  /\ (base_only_value env = false ->
      (forall log,
          ExpressionBuiltinIntLongBase.__init__ env helpers b None None sr log
          = (Return (BuiltinIntLong b None None sr), log))
      /\ ExpressionBuiltinIntLongBase.computeExpression env helpers b None None
           sr collection
         = computeBuiltinSpec helpers (BuiltinIntLong b None None sr) collection [])
  /\ (base_only_value env = true ->
      forall (zero : node) (log log' : list LogRecord),
        makeConstantReplacementNode helpers str_zero sr log = (Return zero, log') ->
        ExpressionBuiltinIntLongBase.__init__ env helpers b None None sr log
        = (Return (BuiltinIntLong b (Some zero) None sr), log')
        /\ ExpressionBuiltinIntLongBase.computeExpression env helpers b
             (Some zero) None sr collection
           = computeBuiltinSpec helpers
               (BuiltinIntLong b (Some zero) None sr) collection [zero])
  /\ (base_only_value env = false ->
      forall (native : builtin -> list pyvalue -> outcome pyvalue)
             (zero : pyvalue) (made : ConstantRefNode) (log log' : list LogRecord),
        native b [] = Return zero ->
        makeConstantRefNode env zero sr false log = (Return made, log') ->
        ExpressionBuiltinIntLongBase.computeExpression env
          (SpecModel.helpers env native) b None None sr collection log
        = (Return ((ConstantRef made, Some "new_constant", Some (pre_computed b)),
                   collection), log')
        /\ constant made = zero)
  /\ (base_only_value env = true ->
      forall (native : builtin -> list pyvalue -> outcome pyvalue)
             (zero : pyvalue) (operand made : ConstantRefNode)
             (log log1 log2 : list LogRecord),
        native b [str_zero] = Return zero ->
        makeConstantRefNode env str_zero sr false log = (Return operand, log1) ->
        makeConstantRefNode env zero sr false log1 = (Return made, log2) ->
        ExpressionBuiltinIntLongBase.__init__ env (SpecModel.helpers env native)
          b None None sr log
        = (Return (BuiltinIntLong b (Some (ConstantRef operand)) None sr), log1)
        /\ ExpressionBuiltinIntLongBase.computeExpression env
             (SpecModel.helpers env native) b (Some (ConstantRef operand)) None
             sr collection log1
           = (Return ((ConstantRef made, Some "new_constant", Some (pre_computed b)),
                      collection), log2)
        /\ constant made = zero).
Proof.
  unfold ExpressionBuiltinIntLongBase.__init__,
    ExpressionBuiltinIntLongBase.computeExpression.
  repeat match goal with |- _ /\ _ => split end.
  - intros -> base. split; reflexivity.
  - intros -> base zero log log' Hzero. split; [|reflexivity].
    erewrite bind_returns.
    2: { erewrite bind_returns by exact Hzero. reflexivity. }
    reflexivity.
  - intros ->. split; reflexivity.
  - intros -> zero log log' Hzero. split; [|reflexivity].
    erewrite bind_returns.
    2: { erewrite bind_returns by exact Hzero. reflexivity. }
    reflexivity.
  - intros _ native zero made log log' Hnative Hmade.
    split; [|now destruct (make_returns _ _ _ _ _ _ _ Hmade)].
    cbn [computeBuiltinSpec SpecModel.helpers SpecModel.computeBuiltinSpec
         SpecModel.constant_values SpecModel.getCompileTimeComputationResult
         SpecModel.run SpecModel.node_source_ref].
    rewrite Hnative. now erewrite bind_returns by exact Hmade.
  - intros -> native zero operand made log log1 log2 Hnative Hoperand Hmade.
    destruct (make_returns _ _ _ _ _ _ _ Hoperand) as (Hvalue & _).
    split; [|split; [|now destruct (make_returns _ _ _ _ _ _ _ Hmade)]].
    + cbn [makeConstantReplacementNode SpecModel.helpers].
      erewrite bind_returns.
      2: { erewrite bind_returns.
           2: { erewrite bind_returns by exact Hoperand. reflexivity. }
           reflexivity. }
      reflexivity.
    + cbn [computeBuiltinSpec SpecModel.helpers SpecModel.computeBuiltinSpec
           SpecModel.constant_values SpecModel.getCompileTimeComputationResult
           SpecModel.run SpecModel.node_source_ref].
      rewrite Hvalue, Hnative. now erewrite bind_returns by exact Hmade.
Qed.

Lemma int_long_without_value_witness :
  (* Python 2.7: int(base = 2) is refused *)
  (ExpressionBuiltinIntLongBase.computeExpression (python27 false) helpers27
     builtin_int None (Some two) here []
   = getCompileTimeComputationResult helpers27 []
       (BuiltinIntLong builtin_int None (Some two) here)
       (call_base_2 builtin_int) "int built-in call with only base argument")
  /\ (ExpressionBuiltinIntLongBase.computeExpression (python27 false) helpers27
        builtin_int None None here []
      = computeBuiltinSpec helpers27 (BuiltinIntLong builtin_int None None here) [] [])
  /\ (ExpressionBuiltinIntLongBase.computeExpression (python27 false) helpers27
        builtin_int None None here [] []
      = (Return ((ConstantRef zero_result, Some "new_constant",
                  Some "Built-in call to 'int' pre-computed."), []), []))
  (* Python 3.2: int(base = 2) is accepted *)
  /\ (ExpressionBuiltinIntLongBase.__init__ (python32 false) helpers32
        builtin_int None (Some two) here []
      = (Return (BuiltinIntLong builtin_int (Some (ConstantRef zero_operand))
                                (Some two) here), []))
  /\ (ExpressionBuiltinIntLongBase.computeExpression (python32 false) helpers32
        builtin_int (Some (ConstantRef zero_operand)) (Some two) here []
      = computeBuiltinSpec helpers32
          (BuiltinIntLong builtin_int (Some (ConstantRef zero_operand))
                          (Some two) here)
          [] [ConstantRef zero_operand; two])
  /\ (ExpressionBuiltinIntLongBase.__init__ (python32 false) helpers32
        builtin_int None None here []
      = (Return (BuiltinIntLong builtin_int (Some (ConstantRef zero_operand))
                                None here), []))
  /\ (ExpressionBuiltinIntLongBase.computeExpression (python32 false) helpers32
        builtin_int (Some (ConstantRef zero_operand)) None here [] []
      = (Return ((ConstantRef zero_result, Some "new_constant",
                  Some "Built-in call to 'int' pre-computed."), []), [])).
Proof.
  destruct (int_long_without_value (python27 false) helpers27 builtin_int here [])
    as (R1 & _ & R3 & _ & R5 & _).
  destruct (int_long_without_value (python32 false) helpers32 builtin_int here [])
    as (_ & A2 & _ & A4 & _ & A6).
  repeat match goal with |- _ /\ _ => split end.
  - exact (proj2 (R1 eq_refl two)).
  - exact (proj2 (R3 eq_refl)).
  - exact (proj1 (R5 eq_refl native_zero (PyInt 0) zero_result [] []
                     eq_refl eq_refl)).
  - exact (proj1 (A2 eq_refl two (ConstantRef zero_operand) [] [] eq_refl)).
  - exact (proj2 (A2 eq_refl two (ConstantRef zero_operand) [] [] eq_refl)).
  - exact (proj1 (A4 eq_refl (ConstantRef zero_operand) [] [] eq_refl)).
  - exact (proj1 (proj2 (A6 eq_refl native_zero (PyInt 0) zero_operand zero_result
                            [] [] [] eq_refl eq_refl eq_refl))).
Defined.

End BuiltinTypeFacts.

(* ===================================================================== *)
(** * Further properties of the C string encoding                         *)
(* ===================================================================== *)

Module MoreCStringsFacts.
Import Chars CStrings CLiteral Reading TextShape CStringsFacts.

(** ** The characters of a literal *)

Lemma every_char_app (p : ascii -> bool) (a b : string) :
  every_char p (a ++ b) = every_char p a && every_char p b.
Proof. induction a as [|x a IH]; cbn; [reflexivity | now rewrite IH, andb_assoc]. Qed.

Lemma piece_plain (octal : bool) (c : byte) :
  every_char plain_char (piece octal c) = true.
Proof. destruct octal, c; vm_compute; reflexivity. Qed.

Lemma pieces_plain (value : list byte) :
  forall octal, every_char plain_char (pieces octal value) = true.
Proof.
  induction value as [|c value IH]; intro octal; cbn [pieces]; [reflexivity|].
  now rewrite every_char_app, piece_plain, IH.
Qed.

Lemma literal_plain (value : list byte) :
  every_char plain_char (_encodePythonStringToC value) = true.
Proof.
  rewrite encode_unfold. cbn [every_char].
  rewrite every_char_app, pieces_plain. reflexivity.
Qed.

Lemma encode_more_plain (result : string) (value : list byte) :
  every_char plain_char result = true ->
  every_char plain_char (encode_more result value) = true.
Proof.
  funelim (encode_more result value); intro Hr; simp encode_more.
  apply H. rewrite !every_char_app, Hr, literal_plain. reflexivity.
Qed.

(** X6: whatever the bytes, every character of the text
    [encodePythonStringToC] returns has a code from 32 to 127 and none is
    a question mark: no character below 32, no byte above 127 and no
    trigraph reaches the C source. *)
Theorem encodePythonStringToC_plain (value : list byte) :
  every_char plain_char (encodePythonStringToC value) = true.
Proof. unfold encodePythonStringToC. apply encode_more_plain, literal_plain. Qed.

(** ** The length of a literal *)

Lemma string_length_app (a b : string) :
  String.length (a ++ b) = String.length a + String.length b.
Proof. induction a as [|x a IH]; cbn; [reflexivity | now rewrite IH]. Qed.

Lemma piece_length (octal : bool) (c : byte) :
  1 <= String.length (piece octal c) <= 4.
Proof. destruct octal, c; vm_compute; split; repeat constructor. Qed.

Lemma pieces_length (value : list byte) :
  forall octal,
    List.length value <= String.length (pieces octal value) <= 4 * List.length value.
Proof.
  induction value as [|c value IH]; intro octal; cbn [pieces List.length]; [cbn; lia|].
  rewrite string_length_app.
  pose proof (piece_length octal c). pose proof (IH (flag_after c)). lia.
Qed.

(** X7: the literal [_encodePythonStringToC] makes of [n] bytes has at
    least [n + 2] and at most [4 * n + 2] characters: each byte takes one
    to four characters between the two quotes. *)
Theorem literal_length (value : list byte) :
  List.length value + 2 <= String.length (_encodePythonStringToC value)
  <= 4 * List.length value + 2.
Proof.
  rewrite encode_unfold. cbn [String.length]. rewrite string_length_app.
  cbn [String.length str1]. pose proof (pieces_length value false). lia.
Qed.

(** X8: the call of [replace] that ends [_encodePythonStringToC] never
    changes the text: a closing quote, a space, an opening quote and a
    backslash never follow each other in what the loop has written. *)
Theorem replace_never_fires (value : list byte) :
  replace (fst (encode_loop value)) (literal_break ++ str1 backslash) (str1 backslash)
  = fst (encode_loop value).
Proof. rewrite encode_loop_pieces. apply replace_pieces. Qed.

(** ** Payloads of whole chunks *)

Lemma encode_full_chunk (a b : list byte) :
  N.of_nat (List.length a) = chunk -> b <> [] ->
  encodePythonStringToC (a ++ b)%list
  = _encodePythonStringToC a ++ str1 space ++ encodePythonStringToC b.
Proof.
  intros Ha Hb.
  assert (Hlen : List.length a = N.to_nat chunk) by lia.
  rewrite encode_long.
  - unfold slice_to, slice_from. rewrite <- Hlen.
    rewrite firstn_app, Nat.sub_diag, firstn_all, firstn_O, app_nil_r.
    rewrite skipn_app, Nat.sub_diag, skipn_all. reflexivity.
  - rewrite length_app. destruct b; [contradiction|]. cbn [List.length]. lia.
Qed.

Lemma encode_one_chunk (a : list byte) :
  N.of_nat (List.length a) = chunk ->
  encodePythonStringToC a = _encodePythonStringToC a.
Proof.
  intro Ha. unfold encodePythonStringToC, slice_from, slice_to.
  rewrite skipn_all2, firstn_all2 by lia. now simp encode_more.
Qed.

(** X9: when the length of [a] is a positive multiple of 16000 and [b]
    is not empty, the encoding of [a] followed by [b] is the encoding of
    [a], one space, and the encoding of [b]. *)
Theorem encode_whole_chunks (k : nat) :
  forall a b : list byte,
    N.of_nat (List.length a) = (N.of_nat (S k) * chunk)%N -> b <> [] ->
    encodePythonStringToC (a ++ b)%list
    = encodePythonStringToC a ++ str1 space ++ encodePythonStringToC b.
Proof.
  induction k as [|k IH]; intros a b Ha Hb.
  - assert (Ha' : N.of_nat (List.length a) = chunk) by (unfold chunk in *; lia).
    rewrite (encode_full_chunk a b Ha' Hb), (encode_one_chunk a Ha'). reflexivity.
  - rewrite <- (slices_app chunk a), <- app_assoc.
    assert (Hhead : N.of_nat (List.length (slice_to chunk a)) = chunk).
    { unfold slice_to. rewrite length_firstn. unfold chunk in *. lia. }
    assert (Htail : N.of_nat (List.length (slice_from chunk a))
                    = (N.of_nat (S k) * chunk)%N).
    { unfold slice_from. rewrite length_skipn. unfold chunk in *. lia. }
    assert (Hne : slice_from chunk a <> []).
    { intro E. rewrite E in Htail. cbn [List.length] in Htail. unfold chunk in *. lia. }
    assert (Hne' : (slice_from chunk a ++ b)%list <> []).
    { destruct (slice_from chunk a); [contradiction | discriminate]. }
    rewrite (encode_full_chunk (slice_to chunk a) _ Hhead Hne').
    rewrite (IH _ b Htail Hb).
    rewrite (encode_full_chunk (slice_to chunk a) (slice_from chunk a) Hhead Hne).
    now rewrite !append_assoc.
Qed.

Lemma encode_whole_chunks_witness :
  encodePythonStringToC (chunk_payload ++ one_byte)%list
  = encodePythonStringToC chunk_payload ++ str1 space
    ++ encodePythonStringToC one_byte.
Proof.
  apply (encode_whole_chunks 0 chunk_payload one_byte).
  - unfold chunk_payload, chunk. rewrite repeat_length. lia.
  - discriminate.
Defined.

(** ** [encodePythonIdentifierToC] *)

Lemma digit_is_identifier (d : N) : is_digit d -> is_identifier_char d = true.
Proof.
  unfold is_digit, is_identifier_char. intros [H1 H2].
  apply N.leb_le in H1, H2. rewrite H1, H2. cbn. now rewrite orb_true_r.
Qed.

Lemma re_sub_char_alphabet (c : N) : Forall identifier_or_dollar (re_sub_char c).
Proof.
  destruct (re_sub_char_written c) as [Hc _ | _ | _ _].
  - constructor; [now left | constructor].
  - constructor; [now right | constructor].
  - constructor; [now right|]. constructor; [now right|].
    apply Forall_app. split.
    + eapply Forall_impl; [|apply format_d_digits].
      intros d Hd. left. now apply digit_is_identifier.
    + constructor; [now right | constructor].
Qed.

(** X10: whatever the text, every character [encodePythonIdentifierToC]
    returns is a letter a-z or A-Z, a digit, an underscore or a dollar
    sign. *)
Theorem encodePythonIdentifierToC_alphabet (value : text) :
  Forall identifier_or_dollar (encodePythonIdentifierToC value).
Proof.
  induction value as [|c value IH]; [constructor|].
  rewrite encode_cons. apply Forall_app. split; [apply re_sub_char_alphabet | assumption].
Qed.

Lemma re_sub_char_length (c : N) : (1 <= List.length (re_sub_char c))%nat.
Proof. destruct (re_sub_char_written c); cbn [List.length]; lia. Qed.

Lemma encode_length (value : text) :
  (List.length value <= List.length (encodePythonIdentifierToC value))%nat.
Proof.
  induction value as [|c value IH]; [cbn; lia|].
  rewrite encode_cons, length_app. pose proof (re_sub_char_length c).
  cbn [List.length]. lia.
Qed.

(** X11: [encodePythonIdentifierToC] returns a text unchanged exactly
    when all its characters are letters a-z or A-Z, digits or
    underscores. *)
Theorem encodePythonIdentifierToC_unchanged (value : text) :
  encodePythonIdentifierToC value = value
  <-> forallb is_identifier_char value = true.
Proof.
  split.
  - induction value as [|c value IH]; intro H; [reflexivity|].
    rewrite encode_cons in H. cbn [forallb].
    destruct (re_sub_char_written c) as [Hc _ | -> | _ _]; cbn in H.
    + injection H as H. now rewrite Hc, IH.
    + discriminate H.
    + injection H as _ H. exfalso.
      apply (f_equal (@List.length N)) in H.
      cbn [List.length] in H. rewrite !length_app in H.
      pose proof (encode_length value). lia.
  - induction value as [|c value IH]; intro H; [reflexivity|].
    cbn [forallb] in H. apply andb_true_iff in H as [Hc Hrest].
    rewrite encode_cons, re_sub_char_identifier by assumption.
    cbn. now rewrite IH.
Qed.

Lemma encodePythonIdentifierToC_unchanged_witness :
  encodePythonIdentifierToC (text_of_string "os_path") = text_of_string "os_path".
Proof.
  exact (proj2 (encodePythonIdentifierToC_unchanged (text_of_string "os_path"))
               eq_refl).
Defined.

End MoreCStringsFacts.

(* ===================================================================== *)
(** * Further properties of the constant nodes                            *)
(* ===================================================================== *)

Module MoreConstantRefFacts.
Import ConstantRefNodes Inputs MoreConstantRefNodes ConstantRefFacts.
Local Open Scope list_scope.
Local Open Scope Z_scope.

(** ** The factory *)

Lemma init_raises (env : Environment) (k : kind) (c : pyvalue) (sr : source_ref)
      (up : bool) (log log' : list LogRecord) (e : exn) :
  ExpressionConstantRefBase.__init__ env k c sr up log = (Raise e, log') ->
  e = AssertionError /\ log' = log /\ isConstant env c = false.
Proof.
  destruct (isConstant env c) eqn:Hc.
  - rewrite init_run by assumption. discriminate.
  - rewrite init_rejects by assumption. intros [= <- <-]. auto.
Qed.

Ltac dispatch env H :=
  unfold makeConstantRefNode, str, long, unicode, bytes, the_empty_dict in H;
  revert H; destruct (python3 env); intro H; cbn in H.

(** X12: on every node the factory returns, the type queries agree with
    the class the factory chose: [isMapping] and [hasShapeDictionaryExact]
    hold exactly for the two dictionary classes, [isBoolConstant] exactly
    for the true and false classes, [isStringConstant] exactly for the
    str class, [isUnicodeConstant] exactly for the unicode class (the
    str class on Python 3); the empty dictionary class is chosen exactly
    for the dictionary without items, and the none class exactly for
    None. *)
Theorem factory_kind_and_predicates (env : Environment) (c : pyvalue)
        (sr : source_ref) (up : bool) (log log' : list LogRecord)
        (n : ConstantRefNode) :
  makeConstantRefNode env c sr up log = (Return n, log') ->
  isMapping n = kind_in (node_kind n)
                  [EXPRESSION_CONSTANT_DICT_REF; EXPRESSION_CONSTANT_DICT_EMPTY_REF]
  /\ hasShapeDictionaryExact n = isMapping n
  /\ isBoolConstant n = kind_in (node_kind n)
                          [EXPRESSION_CONSTANT_TRUE_REF; EXPRESSION_CONSTANT_FALSE_REF]
  /\ isStringConstant env n = kind_eqb (node_kind n) EXPRESSION_CONSTANT_STR_REF
  /\ isUnicodeConstant env n
     = kind_eqb (node_kind n)
         (if python3 env then EXPRESSION_CONSTANT_STR_REF
          else EXPRESSION_CONSTANT_UNICODE_REF)
  /\ (kind_eqb (node_kind n) EXPRESSION_CONSTANT_DICT_EMPTY_REF = true
      <-> constant n = PyDict [])
  /\ (kind_eqb (node_kind n) EXPRESSION_CONSTANT_NONE_REF = true
      <-> constant n = PyNone).
Proof.
  intro H.
  unfold isMapping, hasShapeDictionaryExact, isBoolConstant, isStringConstant,
    isUnicodeConstant, str, unicode.
  destruct c as [ |[|]| | | | | | | | | | | | |[|? ?]| | ];
    dispatch env H; try discriminate H;
    apply init_returns in H; destruct H as [-> _];
    cbn; repeat split; try reflexivity; try discriminate.
Qed.

Lemma factory_kind_and_predicates_witness :
  isMapping empty_dict_node
  = kind_in (node_kind empty_dict_node)
      [EXPRESSION_CONSTANT_DICT_REF; EXPRESSION_CONSTANT_DICT_EMPTY_REF].
Proof.
  exact (proj1 (factory_kind_and_predicates (python27 false) (PyDict []) here true
                  [] [] empty_dict_node eq_refl)).
Defined.

(** X13: the factory ends in no exception other than the assertion
    fault, and when it does the log is as it was; it always does so on a
    frozenset, for which it has no class. *)
Theorem factory_failure (env : Environment) (c : pyvalue) (sr : source_ref)
        (up : bool) (log : list LogRecord) :
  (forall (e : exn) (log' : list LogRecord),
      makeConstantRefNode env c sr up log = (Raise e, log') ->
      e = AssertionError /\ log' = log)
  /\ (forall l : list pyvalue,
         c = PyFrozenset l ->
         makeConstantRefNode env c sr up log = (Raise AssertionError, log)).
Proof.
  split.
  - intros e log' H.
    destruct c as [ |[|]| | | | | | | | | | | | |[|? ?]| | ];
      dispatch env H;
      first [ injection H as <- <-; now split
            | apply init_raises in H; destruct H as (-> & -> & _); now split ].
  - intros l ->. unfold makeConstantRefNode, str, long, unicode, bytes.
    destruct (python3 env); reflexivity.
Qed.

Lemma factory_failure_witness :
  makeConstantRefNode (python27 false) (PyFrozenset [PyInt 1]) here false []
  = (Raise AssertionError, []).
Proof.
  exact (proj2 (factory_failure (python27 false) (PyFrozenset [PyInt 1]) here false [])
               [PyInt 1] eq_refl).
Defined.

(** ** The iteration values *)

Lemma getIterationValues_loop (env : Environment) (sr : source_ref) (up : bool)
      (values : list pyvalue) :
  Forall (accepted_as env sr up) values ->
  forall made log, exists nodes log',
    for_each values
      (fun made value =>
         n <- makeConstantRefNode env value sr up ;;
         ret (made ++ [n]))
      made log
    = (Return (made ++ nodes), log')
    /\ map constant nodes = values
    /\ Forall (fun n => user_provided n = up /\ source_reference n = sr) nodes.
Proof.
  induction 1 as [|value values Hok _ IH]; intros made log.
  - exists [], log. cbn. unfold ret. rewrite app_nil_r. auto.
  - cbn [for_each].
    destruct (Hok log) as (n & log1 & Hn).
    destruct (make_returns _ _ _ _ _ _ _ Hn) as (Hvalue & Hup & Hsr & _).
    destruct (IH (made ++ [n]) log1) as (nodes & log' & Hrun & Hvalues & Hflags).
    exists (n :: nodes), log'. split; [|split].
    + erewrite bind_returns.
      2: { erewrite bind_returns by exact Hn. reflexivity. }
      rewrite Hrun. now rewrite <- app_assoc.
    + cbn [map]. now rewrite Hvalue, Hvalues.
    + constructor; auto.
Qed.

(** X14: on a constant that can be iterated and whose values the factory
    accepts, [getIterationValues] returns one node per value, in the
    order of the iteration (the keys, for a dictionary), each holding
    its value and carrying the user provided flag and the source
    reference of the node. *)
Theorem getIterationValues_returns (env : Environment) (self : ConstantRefNode)
        (values : list pyvalue) (log : list LogRecord) :
  iterate (constant self) = Return values ->
  Forall (accepted_as env (source_reference self) (user_provided self)) values ->
  exists nodes log',
    getIterationValues env self log = (Return nodes, log')
    /\ map constant nodes = values
    /\ Forall (fun n => user_provided n = user_provided self
                        /\ source_reference n = source_reference self) nodes.
Proof.
  intros Hit Hok. unfold getIterationValues, getSourceReference.
  rewrite Hit. cbn [lift]. rewrite bind_ret.
  destruct (getIterationValues_loop env _ _ values Hok [] log)
    as (nodes & log' & Hrun & Hrest).
  exists nodes, log'. now rewrite Hrun.
Qed.

Lemma getIterationValues_returns_witness :
  exists nodes log',
    getIterationValues (python27 false) dict_a1 [] = (Return nodes, log')
    /\ map constant nodes = [PyStr [97%N]]
    /\ Forall (fun n => user_provided n = true /\ source_reference n = here) nodes.
Proof.
  apply (getIterationValues_returns (python27 false) dict_a1 [PyStr [97%N]] []).
  - reflexivity.
  - constructor; [|constructor]. intro log. eexists _, _. reflexivity.
Defined.

(** The element a sequence subscription finds is what the factory is
    applied to. *)
Lemma getIterationValue_item (env : Environment) (self : ConstantRefNode)
      (l : list pyvalue) (count : Z) (element : pyvalue) (log : list LogRecord) :
  constant self = PyTuple l \/ constant self = PyList l ->
  count < size l ->
  sequence_item l count = Return element ->
  getIterationValue env self count log
  = makeConstantRefNode env element (source_reference self) false log.
Proof.
  intros Hc Hlt Hitem. unfold getIterationValue.
  assert (Hlen : len (constant self) = Return (size l))
    by (destruct Hc as [-> | ->]; reflexivity).
  assert (Hsub : subscript (constant self) count = Return element)
    by (destruct Hc as [-> | ->]; exact Hitem).
  rewrite Hlen, Hsub. cbn [lift]. rewrite bind_ret.
  destruct (Z.ltb_spec count (size l)); [|lia]. cbn [assert].
  now rewrite !bind_ret.
Qed.

(** X15: on a tuple or a list of length [n], an index from [- n] up to
    [-1] passes the assertion of [getIterationValue], which then wraps
    the element counted from the end, at position [n + index]. *)
Theorem getIterationValue_negative (env : Environment) (self : ConstantRefNode)
        (l : list pyvalue) (count : Z) (element : pyvalue) (log : list LogRecord) :
  constant self = PyTuple l \/ constant self = PyList l ->
  - size l <= count < 0 ->
  nth_error l (Z.to_nat (size l + count)) = Some element ->
  getIterationValue env self count log
  = makeConstantRefNode env element (source_reference self) false log.
Proof.
  intros Hc Hcount Hnth. apply (getIterationValue_item env self l); [assumption | lia |].
  unfold sequence_item.
  assert (Hneg : (count <? 0) = true) by (apply Z.ltb_lt; lia).
  assert (Hpos : (count + size l <? 0) = false) by (apply Z.ltb_ge; lia).
  rewrite Hneg. cbv zeta iota. rewrite Hpos.
  replace (count + size l) with (size l + count) by lia. now rewrite Hnth.
Qed.

Lemma getIterationValue_negative_witness :
  getIterationValue (python27 false) tuple_123 (-1) []
  = makeConstantRefNode (python27 false) (PyInt 3) here false [].
Proof.
  apply (getIterationValue_negative (python27 false) tuple_123
           [PyInt 1; PyInt 2; PyInt 3] (-1) (PyInt 3) []).
  - left. reflexivity.
  - cbn. lia.
  - reflexivity.
Defined.

(** X16: on a tuple or a list of length [n], an index below [- n] also
    passes the assertion of [getIterationValue]; the subscription then
    raises IndexError, and the log is as it was. *)
Theorem getIterationValue_too_negative (env : Environment) (self : ConstantRefNode)
        (l : list pyvalue) (count : Z) (log : list LogRecord) :
  constant self = PyTuple l \/ constant self = PyList l ->
  count < - size l ->
  getIterationValue env self count log = (Raise IndexError, log).
Proof.
  intros Hc Hcount. unfold getIterationValue.
  assert (Hlen : len (constant self) = Return (size l))
    by (destruct Hc as [-> | ->]; reflexivity).
  assert (Hsize : 0 <= size l) by (unfold size; lia).
  assert (Hsub : subscript (constant self) count = Raise IndexError).
  { assert (Hneg : (count <? 0) = true) by (apply Z.ltb_lt; lia).
    assert (Hneg' : (count + size l <? 0) = true) by (apply Z.ltb_lt; lia).
    destruct Hc as [-> | ->]; cbn [subscript]; unfold sequence_item;
      rewrite Hneg; cbv zeta iota; now rewrite Hneg'. }
  rewrite Hlen, Hsub. cbn [lift]. rewrite bind_ret.
  destruct (Z.ltb_spec count (size l)); [|lia]. cbn [assert].
  rewrite bind_ret. reflexivity.
Qed.

Lemma getIterationValue_too_negative_witness :
  getIterationValue (python27 false) tuple_123 (-4) [] = (Raise IndexError, []).
Proof.
  apply (getIterationValue_too_negative (python27 false) tuple_123
           [PyInt 1; PyInt 2; PyInt 3] (-4) []).
  - left. reflexivity.
  - cbn. lia.
Defined.

Lemma getIterationValue_in_range (env : Environment) (self : ConstantRefNode)
      (count size : Z) (n : ConstantRefNode) (log log' : list LogRecord) :
  len (constant self) = Return size ->
  getIterationValue env self count log = (Return n, log') ->
  count < size.
Proof.
  intros Hlen Hrun. unfold getIterationValue in Hrun. rewrite Hlen in Hrun.
  cbn [lift] in Hrun. rewrite bind_ret in Hrun.
  destruct (Z.ltb_spec count size); [assumption|].
  cbn [assert] in Hrun. discriminate Hrun.
Qed.

Lemma getIterationValues_loop_inv (env : Environment) (sr : source_ref) (up : bool)
      (values : list pyvalue) :
  forall made log all log',
    for_each values
      (fun made value =>
         n <- makeConstantRefNode env value sr up ;;
         ret (made ++ [n]))
      made log
    = (Return all, log') ->
    exists nodes,
      all = made ++ nodes
      /\ map constant nodes = values
      /\ Forall (fun n => user_provided n = up /\ source_reference n = sr) nodes.
Proof.
  induction values as [|value values IH]; intros made log all log' Hrun.
  - cbn in Hrun. injection Hrun as <- _. exists []. now rewrite app_nil_r.
  - cbn [for_each] in Hrun.
    destruct (makeConstantRefNode env value sr up log) as [[n|e] log1] eqn:Hn.
    + erewrite bind_returns in Hrun.
      2: { erewrite bind_returns by exact Hn. reflexivity. }
      destruct (IH _ _ _ _ Hrun) as (nodes & -> & Hvalues & Hflags).
      destruct (make_returns _ _ _ _ _ _ _ Hn) as (Hvalue & Hup & Hsr & _).
      exists (n :: nodes). rewrite <- app_assoc. split; [reflexivity|]. split.
      * cbn [map]. now rewrite Hvalue, Hvalues.
      * constructor; auto.
    + erewrite bind_raises in Hrun.
      2: { erewrite bind_raises by exact Hn. reflexivity. }
      discriminate Hrun.
Qed.

(** X17: on a tuple or a list, when [getIterationValue] returns a node
    for an index from zero on and [getIterationValues] returns its
    nodes, the node at that index among the latter holds the same value
    at the same source reference; the two differ in the user provided
    flag, which is false for the single node and the flag of the
    constant for the others. *)
Theorem iteration_values_agree (env : Environment) (self : ConstantRefNode)
        (l : list pyvalue) (count : Z) (n : ConstantRefNode)
        (nodes : list ConstantRefNode) (log1 log1' log2 log2' : list LogRecord) :
  constant self = PyTuple l \/ constant self = PyList l ->
  0 <= count ->
  getIterationValue env self count log1 = (Return n, log1') ->
  getIterationValues env self log2 = (Return nodes, log2') ->
  exists m,
    nth_error nodes (Z.to_nat count) = Some m
    /\ constant m = constant n
    /\ source_reference m = source_reference n
    /\ user_provided n = false
    /\ user_provided m = user_provided self.
Proof.
  intros Hc Hcount Hone Hall.
  assert (Hit : iterate (constant self) = Return l)
    by (destruct Hc as [-> | ->]; reflexivity).
  assert (Hlen : len (constant self) = Return (size l))
    by (destruct Hc as [-> | ->]; reflexivity).
  assert (Hlt : count < size l)
    by exact (getIterationValue_in_range _ _ _ _ _ _ _ Hlen Hone).
  destruct (nth_error l (Z.to_nat count)) as [element|] eqn:Hnth.
  2: { apply nth_error_None in Hnth. unfold size in Hlt. lia. }
  assert (Hitem : sequence_item l count = Return element).
  { unfold sequence_item.
    assert (Hneg : (count <? 0) = false) by (apply Z.ltb_ge; lia).
    rewrite Hneg. cbv zeta iota. now rewrite Hneg, Hnth. }
  rewrite (getIterationValue_item env self l count element log1 Hc Hlt Hitem) in Hone.
  destruct (make_returns _ _ _ _ _ _ _ Hone) as (Hn & Hnup & Hnsr & _).
  unfold getIterationValues, getSourceReference in Hall.
  rewrite Hit in Hall. cbn [lift] in Hall. rewrite bind_ret in Hall.
  destruct (getIterationValues_loop_inv _ _ _ _ _ _ _ _ Hall)
    as (nodes' & Hnodes & Hvalues & Hflags).
  cbn [List.app] in Hnodes. subst nodes'.
  assert (Hm : exists m, nth_error nodes (Z.to_nat count) = Some m).
  { destruct (nth_error nodes (Z.to_nat count)) eqn:E; [eauto|].
    apply nth_error_None in E.
    apply (f_equal (@List.length pyvalue)) in Hvalues. rewrite length_map in Hvalues.
    assert (Z.to_nat count < List.length l)%nat
      by (apply nth_error_Some; congruence).
    lia. }
  destruct Hm as [m Hm]. exists m. split; [assumption|].
  assert (Hmv : constant m = element).
  { apply (map_nth_error constant) in Hm. rewrite Hvalues, Hnth in Hm. congruence. }
  rewrite Forall_forall in Hflags.
  destruct (Hflags m (nth_error_In _ _ Hm)) as [Hmup Hmsr].
  repeat split; congruence.
Qed.

Lemma iteration_values_agree_witness :
  exists m,
    nth_error [mkConstantRef EXPRESSION_CONSTANT_INT_REF (PyInt 1) true here;
               mkConstantRef EXPRESSION_CONSTANT_INT_REF (PyInt 2) true here]
              (Z.to_nat 1) = Some m
    /\ constant m = constant int_2
    /\ source_reference m = source_reference int_2
    /\ user_provided int_2 = false
    /\ user_provided m = user_provided tuple_12.
Proof.
  exact (iteration_values_agree (python27 false) tuple_12 [PyInt 1; PyInt 2] 1
           int_2 _ [] [] [] [] (or_introl eq_refl) (Z.le_0_1) eq_refl eq_refl).
Defined.

(** ** The keys of a mapping *)

Lemma string_keys_forallb (env : Environment) (keys : list pyvalue) :
  string_keys env keys = forallb (is_string env) keys.
Proof.
  induction keys as [|key keys IH]; cbn [string_keys forallb]; [reflexivity|].
  unfold is_string at 1. destruct (type_in (type_of key) _); cbn; [assumption | reflexivity].
Qed.

Lemma getMappingStringKeyPairs_loop_inv (env : Environment) (sr : source_ref)
      (items : list (pyvalue * pyvalue)) :
  forall pairs log all log',
    for_each items
      (fun pairs '(key, value) =>
         v <- makeConstantRefNode env value sr false ;;
         lift (list_append pairs [ItemTuple [ItemKey key; ItemNode v]]))
      pairs log
    = (Return all, log') ->
    exists made,
      all = pairs ++ made /\ map item_key made = map (fun kv => Some (fst kv)) items.
Proof.
  induction items as [|[key value] items IH]; intros pairs log all log' Hrun.
  - cbn in Hrun. injection Hrun as <- _. exists []. now rewrite app_nil_r.
  - cbn [for_each] in Hrun.
    destruct (makeConstantRefNode env value sr false log) as [[n|e] log1] eqn:Hn.
    + erewrite bind_returns in Hrun.
      2: { erewrite bind_returns by exact Hn. reflexivity. }
      destruct (IH _ _ _ _ Hrun) as (made & -> & Hkeys).
      exists (ItemTuple [ItemKey key; ItemNode n] :: made).
      rewrite <- app_assoc. split; [reflexivity|].
      cbn [map item_key fst]. now rewrite Hkeys.
    + erewrite bind_raises in Hrun.
      2: { erewrite bind_raises by exact Hn. reflexivity. }
      discriminate Hrun.
Qed.

(** X18: when [isMappingWithConstantStringKeys] answers true for a node,
    every pair [getMappingStringKeyPairs] returns for it starts with a
    raw key whose type is str or unicode. *)
Theorem string_keys_of_pairs (env : Environment) (self : ConstantRefNode)
        (pairs : list item) (log log' : list LogRecord) :
  isMappingWithConstantStringKeys env self = Return true ->
  getMappingStringKeyPairs env self log = (Return pairs, log') ->
  Forall (fun i => exists key, item_key i = Some key /\ is_string env key = true) pairs.
Proof.
  unfold isMappingWithConstantStringKeys, getMappingStringKeyPairs, getSourceReference.
  destruct (isMapping self) eqn:Hmap; [|discriminate].
  destruct (constant self) as [ | | | | | | | | | | | | | |items| | ] eqn:Hc;
    cbn [iterate iterItems lift assert]; try discriminate.
  intros [= Hkeys] Hrun. rewrite string_keys_forallb in Hkeys.
  rewrite !bind_ret in Hrun.
  destruct (getMappingStringKeyPairs_loop_inv _ _ _ _ _ _ _ Hrun)
    as (made & -> & Hmade).
  cbn [List.app]. clear Hrun Hc Hmap.
  rewrite forallb_forall in Hkeys.
  revert made Hmade. induction items as [|[key value] items IH]; intros [|i made] Hmade;
    cbn [map] in Hmade; try discriminate; constructor.
  - injection Hmade as Hi _. exists key. split; [exact Hi|].
    apply Hkeys. left. reflexivity.
  - injection Hmade as _ Hmade. apply IH; [|exact Hmade].
    intros x Hx. apply Hkeys. right. exact Hx.
Qed.

Lemma string_keys_of_pairs_witness :
  Forall (fun i => exists key,
              item_key i = Some key /\ is_string (python27 false) key = true)
         [ItemTuple [ItemKey (PyStr [97%N]);
                     ItemNode (mkConstantRef EXPRESSION_CONSTANT_INT_REF
                                 (PyInt 1) false here)]].
Proof.
  exact (string_keys_of_pairs (python27 false) dict_a1 _ [] [] eq_refl eq_refl).
Defined.

(** ** The rewrite of an iteration *)

(** X19: [computeExpressionIter1] rewrites at most once.  When it has
    put a tuple constant into the slot (tag [new_constant]), running it
    again on that constant returns the iteration node with no tag and
    leaves the slot and the log as they are; the new constant is a tuple
    with the iteration values and the user provided flag of the old
    one. *)
Theorem computeExpressionIter1_once (env : Environment) (self made : ConstantRefNode)
        (iter_node : node) (collection collection1 : Collection) (parent_slot : node)
        (description : option string) (log log1 : list LogRecord) :
  computeExpressionIter1 env self iter_node collection parent_slot log
  = (Return ((iter_node, Some "new_constant", description), collection1,
             ConstantRef made), log1) ->
  exists collection2,
    computeExpressionIter1 env made iter_node collection1 (ConstantRef made) log1
    = (Return ((iter_node, None, None), collection2, ConstantRef made), log1)
    /\ type_of (constant made) = TTuple
    /\ iterate (constant made) = iterate (constant self)
    /\ user_provided made = user_provided self.
Proof.
  unfold computeExpressionIter1 at 1.
  destruct (type_in (type_of (constant self)) [TList; TSet; TFrozenset; TDict]) eqn:Hty.
  2: { unfold ret. intros [= ]. }
  destruct (iterate (constant self)) as [elements|e] eqn:Hit; cbn [lift].
  2: { intro H. cbv in H. discriminate H. }
  rewrite bind_ret.
  destruct (makeConstantRefNode env (PyTuple elements) (getSourceReference self)
              (user_provided self) log) as [[n|e] log'] eqn:Hn.
  2: { erewrite bind_raises by exact Hn. discriminate. }
  erewrite bind_returns by exact Hn. unfold ret. intros [= _ <- <- <-].
  destruct (make_returns _ _ _ _ _ _ _ Hn) as (Hc & Hup & _).
  unfold computeExpressionIter1. rewrite Hc. cbn [type_of type_in existsb pytype_eqb orb].
  eexists. split; [reflexivity|]. now rewrite Hup.
Qed.

Lemma computeExpressionIter1_once_witness :
  exists collection2,
    computeExpressionIter1 (python27 false) tuple_123 iter_node []
                           (ConstantRef tuple_123) []
    = (Return ((iter_node, None, None), collection2, ConstantRef tuple_123), [])
    /\ type_of (constant tuple_123) = TTuple
    /\ iterate (constant tuple_123) = iterate (constant set_123)
    /\ user_provided tuple_123 = user_provided set_123.
Proof.
  exact (computeExpressionIter1_once (python27 false) set_123 tuple_123 iter_node
           [] [] (ConstantRef set_123) _ [] [] eq_refl).
Defined.

(** ** [getMappingPairs] *)

(** X20: [getMappingPairs] ends in the assertion fault on a node that is
    not a mapping, returns the empty list on the mapping without items,
    and on every mapping with at least one item ends in an exception: it
    returns pairs for no mapping that has any. *)
Theorem getMappingPairs_cases (env : Environment) (self : ConstantRefNode)
        (log : list LogRecord) :
  (isMapping self = false -> getMappingPairs env self log = (Raise AssertionError, log))
  /\ (constant self = PyDict [] -> getMappingPairs env self log = (Return [], log))
  /\ (forall kv rest,
         constant self = PyDict (kv :: rest) ->
         exists e log', getMappingPairs env self log = (Raise e, log')).
Proof.
  split; [|split].
  - intro H. unfold getMappingPairs. now rewrite H.
  - intro H. unfold getMappingPairs, isMapping. now rewrite H.
  - intros [key value] rest Hc.
    destruct (getMappingPairs_never_returns env self key value rest log Hc) as [e He].
    destruct (getMappingPairs env self log) as [o log'].
    exists e, log'. cbn in He. now rewrite He.
Qed.

Lemma getMappingPairs_cases_witness :
  getMappingPairs (python27 false) int_7 [] = (Raise AssertionError, [])
  /\ getMappingPairs (python27 false) empty_dict_node [] = (Return [], [])
  /\ exists e log', getMappingPairs (python27 false) dict_a1 [] = (Raise e, log').
Proof.
  split; [|split].
  - exact (proj1 (getMappingPairs_cases (python27 false) int_7 []) eq_refl).
  - exact (proj1 (proj2 (getMappingPairs_cases (python27 false) empty_dict_node []))
                 eq_refl).
  - exact (proj2 (proj2 (getMappingPairs_cases (python27 false) dict_a1 []))
                 _ _ eq_refl).
Defined.

(** ** What is known of an iteration *)

(** X21: the iteration queries of a constant agree with each other,
    whatever [getConstantIterationLength] is.  A constant known to be
    iterable with exactly [count] values is known to have at least
    [count], can have its values predicted, and has the iteration length
    [count]; a constant known to have at least [count] values is known to
    have at least every smaller number; on a constant that is not
    iterable all three queries answer false and the length is None. *)
Theorem iterable_known_relations (env : Environment)
        (getConstantIterationLength : pyvalue -> outcome Z)
        (self : ConstantRefNode) (count : Z) :
  (isKnownToBeIterable env getConstantIterationLength self (Some count) = Return true ->
   isKnownToBeIterableAtMin env getConstantIterationLength self count = Return true
   /\ canPredictIterationValues env getConstantIterationLength self = Return true
   /\ getIterationLength env getConstantIterationLength self = Return (Some count))
  /\ (forall fewer,
         isKnownToBeIterableAtMin env getConstantIterationLength self count = Return true ->
         fewer <= count ->
         isKnownToBeIterableAtMin env getConstantIterationLength self fewer = Return true)
  /\ (isIterableConstant env (constant self) = false ->
      isKnownToBeIterable env getConstantIterationLength self (Some count) = Return false
      /\ isKnownToBeIterableAtMin env getConstantIterationLength self count = Return false
      /\ canPredictIterationValues env getConstantIterationLength self = Return false
      /\ getIterationLength env getConstantIterationLength self = Return None).
Proof.
  unfold isKnownToBeIterableAtMin, canPredictIterationValues, isKnownToBeIterable,
    getIterationLength.
  destruct (isIterableConstant env (constant self)); (split; [|split]).
  - destruct (getConstantIterationLength (constant self)) as [n|e]; cbn; [|discriminate].
    intros [= H]. apply Z.eqb_eq in H. subst n.
    rewrite Z.geb_leb, Z.leb_refl. auto.
  - intro fewer. destruct (getConstantIterationLength (constant self)) as [n|e]; cbn;
      [|discriminate].
    rewrite !Z.geb_leb. intros [= H] Hle. apply Z.leb_le in H. f_equal. apply Z.leb_le. lia.
  - discriminate.
  - discriminate.
  - discriminate.
  - auto.
Qed.

Lemma iterable_known_relations_witness :
  (isKnownToBeIterableAtMin (python27 false) len tuple_123 3 = Return true
   /\ canPredictIterationValues (python27 false) len tuple_123 = Return true
   /\ getIterationLength (python27 false) len tuple_123 = Return (Some 3))
  /\ isKnownToBeIterableAtMin (python27 false) len tuple_123 2 = Return true
  /\ isKnownToBeIterable (python27 false) len int_7 (Some 3) = Return false.
Proof.
  split; [|split].
  - exact (proj1 (iterable_known_relations (python27 false) len tuple_123 3) eq_refl).
  - exact (proj1 (proj2 (iterable_known_relations (python27 false) len tuple_123 3))
                 2 eq_refl ltac:(lia)).
  - exact (proj1 (proj2 (proj2 (iterable_known_relations (python27 false) len int_7 3))
                        eq_refl)).
Defined.

End MoreConstantRefFacts.

(* ===================================================================== *)
(** * Properties of the text constructor node                             *)
(* ===================================================================== *)

Module MoreBuiltinTypeFacts.
Import BuiltinTypeNodes Inputs MoreBuiltinTypeNodes.
Import ExpressionBuiltinUnicodeBase.
Local Open Scope list_scope.

Lemma ends_with_none_last (args : list (option node)) :
  ends_with_none args = true -> args = removelast args ++ [None].
Proof.
  destruct args as [|x args _] using rev_ind; [discriminate|].
  unfold ends_with_none. rewrite rev_app_distr, removelast_last. cbn.
  destruct x; [discriminate | reflexivity].
Qed.

(** The loop takes the omitted operands off the end, and nothing else. *)
Lemma trim_args_drops_trailing_none (args : list (option node)) :
  ends_with_none (trim_args args) = false
  /\ exists k, args = trim_args args ++ repeat None k.
Proof.
  funelim (trim_args args).
  - destruct H as [Hend [k Hk]]. split; [assumption|].
    exists (S k). rewrite (ends_with_none_last args E) at 1. rewrite Hk at 1.
    rewrite <- app_assoc. f_equal. change [None] with (repeat (@None node) 1).
    rewrite <- repeat_app. f_equal. lia.
  - split; [assumption|]. exists 0%nat. cbn. now rewrite app_nil_r.
Qed.

Lemma fold_removeKnowledge (args : list (option node)) :
  forall collection,
    fold_left (fun collection arg => collection ++ [removeKnowledge arg])
              args collection
    = collection ++ map removeKnowledge args.
Proof.
  induction args as [|arg args IH]; intro collection; cbn [fold_left map].
  - now rewrite app_nil_r.
  - rewrite IH, <- app_assoc. reflexivity.
Qed.

(** X22: whatever [computeBuiltinSpec] does afterwards,
    [ExpressionBuiltinUnicodeBase.computeExpression] hands it the
    operands [value, encoding, errors] without the omitted ones at the
    end (and with any omitted one that stands before a present one), and
    by then the collection has received, after its earlier calls, one
    [removeKnowledge] for each of these operands in order, the omitted
    ones among them included, and then one [onControlFlowEscape] for the
    node. *)
Theorem unicode_escape_calls
        (computeBuiltinSpec :
           node -> EscapeCollection -> list (option node)
           -> M (Result * EscapeCollection))
        (self : node) (value encoding errors : option node)
        (collection : EscapeCollection) :
  exists args k,
    [value; encoding; errors] = args ++ repeat None k
    /\ ends_with_none args = false
    /\ computeExpression computeBuiltinSpec self value encoding errors collection
       = computeBuiltinSpec self
           (collection ++ map removeKnowledge args ++ [onControlFlowEscape self])
           args.
Proof.
  destruct (trim_args_drops_trailing_none [value; encoding; errors]) as [Hend [k Hk]].
  exists (trim_args [value; encoding; errors]), k.
  split; [assumption|]. split; [assumption|].
  unfold computeExpression. now rewrite fold_removeKnowledge, <- app_assoc.
Qed.

(** With an encoding and no value, the omitted value is an operand too. *)
Example unicode_encoding_only :
  trim_args [None; Some two; None] = [None; Some two].
Proof. reflexivity. Qed.

End MoreBuiltinTypeFacts.
